(** * DragEngine: the drag gesture state machine of use-gesture

    A shallow embedding of [packages/core/src/engines/DragEngine.ts].

    - JavaScript numbers are IEEE-754 binary64 values, embedded as Rocq's
      primitive [float]; [<], [<=], [===], [Math.abs], [+], [-], [*] are the
      primitive operations, so NaN, signed zeros and rounding behave as in
      the engine.
    - The engine object ([this]) together with the pieces of the host it
      talks to (pointer capture, pointer lock, the [setTimeout] queue and the
      consumer callback) is the record [Engine]; every method is a function
      [Engine -> Engine].
    - [DragEngine] extends [CoordinatesEngine]/[Engine], whose sources are
      not part of the analysed unit.  The inherited methods the drag engine
      calls ([start], [compute], the generic [reset]) are the fields of the
      interface [Base]; the development is parametric in it.  So is the
      outcome of a key-down whose key names a member inherited from
      [Object.prototype], which leaves the typed state.  What the
      specification says about [compute] is stated as the contract
      [ComputeFrame]; [refBase] is one implementation of the interface that
      follows the specification, used to run the engine on concrete inputs.
    - [setup] (bounds from DOM geometry) is not embedded; no property
      proved here depends on it. *)

From Stdlib Require Import Bool List String ZArith Lia.
From Stdlib Require Import PrimFloat.
Import ListNotations.

#[local] Set Warnings "-inexact-float".
#[local] Open Scope string_scope.
#[local] Open Scope list_scope.
#[local] Open Scope float_scope.

(** ** JavaScript values *)

Definition Vector2 : Type := float * float.

(** Truthiness of a number: [0], [-0] and [NaN] are falsy. *)
Definition truthy (x : float) : bool := negb ((x =? 0) || is_nan x).

(** Truthiness of a possibly undefined identifier: [undefined] and [0] are
    falsy, every other identifier is truthy. *)
Definition truthy_id (i : option Z) : bool :=
  match i with
  | None => false
  | Some z => negb (z =? 0)%Z
  end.

(** [a === b] on possibly undefined identifiers. *)
Definition id_eqb (a b : option Z) : bool :=
  match a, b with
  | None, None => true
  | Some x, Some y => (x =? y)%Z
  | _, _ => false
  end.

(** [a === b] where [a] may be undefined and [b] is a string. *)
Definition type_eqb (a : option string) (b : string) : bool :=
  match a with
  | None => false
  | Some x => String.eqb x b
  end.

(** DOM nodes are compared by identity. *)
Definition Element : Type := nat.

(** [a === b] where [a] is [null] or a node and [b] is [undefined] or a
    node. *)
Definition node_eqb (a b : option Element) : bool :=
  match a, b with
  | Some x, Some y => Nat.eqb x y
  | _, _ => false
  end.

(** Modelled from the spec: the vector helpers [V.sub] and [V.addTo] of
    [utils/maths], which is not part of the analysed unit ("compute the delta
    as current absolute position - last absolute position", "accumulate delta
    into movement").  [V.addTo] updates its first argument in place; here it
    returns the updated vector. *)
Module V.
Definition sub (v1 v2 : Vector2) : Vector2 :=
  (fst v1 - fst v2, snd v1 - snd v2).
Definition addTo (v1 v2 : Vector2) : Vector2 :=
  (fst v1 + fst v2, snd v1 + snd v2).
End V.

(** ** Events *)

Module PointerEvent.
Record t : Type := {
  type : string;
  timeStamp : float;
  pointerId : option Z;      (* undefined for plain mouse events *)
  clientX : float;
  clientY : float;
  movementX : float;
  movementY : float;
  target : Element;
  currentTarget : Element;
  cancelable : bool
}.
End PointerEvent.

Module KeyboardEvent.
Record t : Type := {
  type : string;
  timeStamp : float;
  key : string;
  shiftKey : bool;
  altKey : bool;
  target : Element;
  currentTarget : Element
}.
End KeyboardEvent.

Inductive Event : Type :=
| OfPointer (e : PointerEvent.t)
| OfKey (e : KeyboardEvent.t).

(** Modelled from the spec: [pointerId] and [pointerValues] of
    [utils/events]; pointer events "carry an identifier" and "absolute
    coordinates". *)
Definition pointerId (e : PointerEvent.t) : option Z :=
  PointerEvent.pointerId e.

Definition pointerValues (e : PointerEvent.t) : Vector2 :=
  (PointerEvent.clientX e, PointerEvent.clientY e).

(** ** Configuration *)

Inductive Axis : Type := AxisX | AxisY.

Inductive ScrollAxis : Type := ScrollX | ScrollY | ScrollXY.

(** [state.axis === config.preventScrollAxis] *)
Definition axis_matches (a : Axis) (p : ScrollAxis) : bool :=
  match a, p with
  | AxisX, ScrollX => true
  | AxisY, ScrollY => true
  | _, _ => false
  end.

Definition is_xy (p : ScrollAxis) : bool :=
  match p with
  | ScrollXY => true
  | _ => false
  end.

(** The resolved options the engine reads.  [preventScroll] is a number: the
    engine tests it for truthiness and also passes it as the delay of the
    forced-activation timer. *)
Module Config.
Record t : Type := {
  device : string;
  pointerCapture : bool;
  pointerLock : bool;
  preventScroll : float;
  preventScrollAxis : ScrollAxis;
  delay : float;
  filterTaps : bool;
  swipeVelocity : Vector2;
  swipeDistance : Vector2;
  swipeDuration : float
}.
End Config.

(** ** Gesture state *)

Record State : Type := {
  _active : bool;
  _pointerActive : bool;
  _keyboardActive : bool;
  _pointerId : option Z;
  _preventScroll : bool;
  _delayed : bool;
  _force : bool;
  canceled : bool;
  tap : bool;
  swipe : Vector2;
  values : Vector2;
  initial : Vector2;
  _delta : Vector2;
  _movement : Vector2;
  (* fields below are only read by the drag engine *)
  _distance : Vector2;
  movement : Vector2;
  direction : Vector2;
  velocity : Vector2;
  axis : option Axis;
  type : option string;
  timeStamp : float;
  startTime : float;
  elapsedTime : float;
  currentTarget : option Element
}.

(** Field assignments [state.f = v]. *)

Definition set_active (v : bool) (s : State) : State :=
  {| _active := v; _pointerActive := _pointerActive s;
     _keyboardActive := _keyboardActive s; _pointerId := _pointerId s;
     _preventScroll := _preventScroll s; _delayed := _delayed s;
     _force := _force s; canceled := canceled s; tap := tap s;
     swipe := swipe s; values := values s; initial := initial s;
     _delta := _delta s; _movement := _movement s; _distance := _distance s;
     movement := movement s; direction := direction s;
     velocity := velocity s; axis := axis s; type := type s;
     timeStamp := timeStamp s; startTime := startTime s;
     elapsedTime := elapsedTime s; currentTarget := currentTarget s |}.

Definition set_pointerActive (v : bool) (s : State) : State :=
  {| _active := _active s; _pointerActive := v;
     _keyboardActive := _keyboardActive s; _pointerId := _pointerId s;
     _preventScroll := _preventScroll s; _delayed := _delayed s;
     _force := _force s; canceled := canceled s; tap := tap s;
     swipe := swipe s; values := values s; initial := initial s;
     _delta := _delta s; _movement := _movement s; _distance := _distance s;
     movement := movement s; direction := direction s;
     velocity := velocity s; axis := axis s; type := type s;
     timeStamp := timeStamp s; startTime := startTime s;
     elapsedTime := elapsedTime s; currentTarget := currentTarget s |}.

Definition set_keyboardActive (v : bool) (s : State) : State :=
  {| _active := _active s; _pointerActive := _pointerActive s;
     _keyboardActive := v; _pointerId := _pointerId s;
     _preventScroll := _preventScroll s; _delayed := _delayed s;
     _force := _force s; canceled := canceled s; tap := tap s;
     swipe := swipe s; values := values s; initial := initial s;
     _delta := _delta s; _movement := _movement s; _distance := _distance s;
     movement := movement s; direction := direction s;
     velocity := velocity s; axis := axis s; type := type s;
     timeStamp := timeStamp s; startTime := startTime s;
     elapsedTime := elapsedTime s; currentTarget := currentTarget s |}.

Definition set_pointerId (v : option Z) (s : State) : State :=
  {| _active := _active s; _pointerActive := _pointerActive s;
     _keyboardActive := _keyboardActive s; _pointerId := v;
     _preventScroll := _preventScroll s; _delayed := _delayed s;
     _force := _force s; canceled := canceled s; tap := tap s;
     swipe := swipe s; values := values s; initial := initial s;
     _delta := _delta s; _movement := _movement s; _distance := _distance s;
     movement := movement s; direction := direction s;
     velocity := velocity s; axis := axis s; type := type s;
     timeStamp := timeStamp s; startTime := startTime s;
     elapsedTime := elapsedTime s; currentTarget := currentTarget s |}.

Definition set_preventScroll (v : bool) (s : State) : State :=
  {| _active := _active s; _pointerActive := _pointerActive s;
     _keyboardActive := _keyboardActive s; _pointerId := _pointerId s;
     _preventScroll := v; _delayed := _delayed s; _force := _force s;
     canceled := canceled s; tap := tap s; swipe := swipe s;
     values := values s; initial := initial s; _delta := _delta s;
     _movement := _movement s; _distance := _distance s;
     movement := movement s; direction := direction s;
     velocity := velocity s; axis := axis s; type := type s;
     timeStamp := timeStamp s; startTime := startTime s;
     elapsedTime := elapsedTime s; currentTarget := currentTarget s |}.

Definition set_delayed (v : bool) (s : State) : State :=
  {| _active := _active s; _pointerActive := _pointerActive s;
     _keyboardActive := _keyboardActive s; _pointerId := _pointerId s;
     _preventScroll := _preventScroll s; _delayed := v; _force := _force s;
     canceled := canceled s; tap := tap s; swipe := swipe s;
     values := values s; initial := initial s; _delta := _delta s;
     _movement := _movement s; _distance := _distance s;
     movement := movement s; direction := direction s;
     velocity := velocity s; axis := axis s; type := type s;
     timeStamp := timeStamp s; startTime := startTime s;
     elapsedTime := elapsedTime s; currentTarget := currentTarget s |}.

Definition set_force (v : bool) (s : State) : State :=
  {| _active := _active s; _pointerActive := _pointerActive s;
     _keyboardActive := _keyboardActive s; _pointerId := _pointerId s;
     _preventScroll := _preventScroll s; _delayed := _delayed s; _force := v;
     canceled := canceled s; tap := tap s; swipe := swipe s;
     values := values s; initial := initial s; _delta := _delta s;
     _movement := _movement s; _distance := _distance s;
     movement := movement s; direction := direction s;
     velocity := velocity s; axis := axis s; type := type s;
     timeStamp := timeStamp s; startTime := startTime s;
     elapsedTime := elapsedTime s; currentTarget := currentTarget s |}.

Definition set_canceled (v : bool) (s : State) : State :=
  {| _active := _active s; _pointerActive := _pointerActive s;
     _keyboardActive := _keyboardActive s; _pointerId := _pointerId s;
     _preventScroll := _preventScroll s; _delayed := _delayed s;
     _force := _force s; canceled := v; tap := tap s; swipe := swipe s;
     values := values s; initial := initial s; _delta := _delta s;
     _movement := _movement s; _distance := _distance s;
     movement := movement s; direction := direction s;
     velocity := velocity s; axis := axis s; type := type s;
     timeStamp := timeStamp s; startTime := startTime s;
     elapsedTime := elapsedTime s; currentTarget := currentTarget s |}.

Definition set_tap (v : bool) (s : State) : State :=
  {| _active := _active s; _pointerActive := _pointerActive s;
     _keyboardActive := _keyboardActive s; _pointerId := _pointerId s;
     _preventScroll := _preventScroll s; _delayed := _delayed s;
     _force := _force s; canceled := canceled s; tap := v; swipe := swipe s;
     values := values s; initial := initial s; _delta := _delta s;
     _movement := _movement s; _distance := _distance s;
     movement := movement s; direction := direction s;
     velocity := velocity s; axis := axis s; type := type s;
     timeStamp := timeStamp s; startTime := startTime s;
     elapsedTime := elapsedTime s; currentTarget := currentTarget s |}.

Definition set_swipe (v : Vector2) (s : State) : State :=
  {| _active := _active s; _pointerActive := _pointerActive s;
     _keyboardActive := _keyboardActive s; _pointerId := _pointerId s;
     _preventScroll := _preventScroll s; _delayed := _delayed s;
     _force := _force s; canceled := canceled s; tap := tap s; swipe := v;
     values := values s; initial := initial s; _delta := _delta s;
     _movement := _movement s; _distance := _distance s;
     movement := movement s; direction := direction s;
     velocity := velocity s; axis := axis s; type := type s;
     timeStamp := timeStamp s; startTime := startTime s;
     elapsedTime := elapsedTime s; currentTarget := currentTarget s |}.

Definition set_values (v : Vector2) (s : State) : State :=
  {| _active := _active s; _pointerActive := _pointerActive s;
     _keyboardActive := _keyboardActive s; _pointerId := _pointerId s;
     _preventScroll := _preventScroll s; _delayed := _delayed s;
     _force := _force s; canceled := canceled s; tap := tap s;
     swipe := swipe s; values := v; initial := initial s; _delta := _delta s;
     _movement := _movement s; _distance := _distance s;
     movement := movement s; direction := direction s;
     velocity := velocity s; axis := axis s; type := type s;
     timeStamp := timeStamp s; startTime := startTime s;
     elapsedTime := elapsedTime s; currentTarget := currentTarget s |}.

Definition set_initial (v : Vector2) (s : State) : State :=
  {| _active := _active s; _pointerActive := _pointerActive s;
     _keyboardActive := _keyboardActive s; _pointerId := _pointerId s;
     _preventScroll := _preventScroll s; _delayed := _delayed s;
     _force := _force s; canceled := canceled s; tap := tap s;
     swipe := swipe s; values := values s; initial := v; _delta := _delta s;
     _movement := _movement s; _distance := _distance s;
     movement := movement s; direction := direction s;
     velocity := velocity s; axis := axis s; type := type s;
     timeStamp := timeStamp s; startTime := startTime s;
     elapsedTime := elapsedTime s; currentTarget := currentTarget s |}.

Definition set_delta (v : Vector2) (s : State) : State :=
  {| _active := _active s; _pointerActive := _pointerActive s;
     _keyboardActive := _keyboardActive s; _pointerId := _pointerId s;
     _preventScroll := _preventScroll s; _delayed := _delayed s;
     _force := _force s; canceled := canceled s; tap := tap s;
     swipe := swipe s; values := values s; initial := initial s; _delta := v;
     _movement := _movement s; _distance := _distance s;
     movement := movement s; direction := direction s;
     velocity := velocity s; axis := axis s; type := type s;
     timeStamp := timeStamp s; startTime := startTime s;
     elapsedTime := elapsedTime s; currentTarget := currentTarget s |}.

Definition set_movement (v : Vector2) (s : State) : State :=
  {| _active := _active s; _pointerActive := _pointerActive s;
     _keyboardActive := _keyboardActive s; _pointerId := _pointerId s;
     _preventScroll := _preventScroll s; _delayed := _delayed s;
     _force := _force s; canceled := canceled s; tap := tap s;
     swipe := swipe s; values := values s; initial := initial s;
     _delta := _delta s; _movement := v; _distance := _distance s;
     movement := movement s; direction := direction s;
     velocity := velocity s; axis := axis s; type := type s;
     timeStamp := timeStamp s; startTime := startTime s;
     elapsedTime := elapsedTime s; currentTarget := currentTarget s |}.

(** ** The engine and its host *)

(** Handlers the engine registers on the shared window while a gesture is in
    progress. *)
Inductive Handler : Type :=
| HPointerMove
| HPointerUp
| HPreventScroll
| HClean.

Record Listener : Type := {
  l_device : string;
  l_phase : string;
  l_handler : Handler
}.

(** The only callback the engine hands to its timer store is
    [startPointerDrag], bound to the engine, with the pointer-down event as
    argument. *)
Inductive Callback : Type :=
| CbStartPointerDrag.

Record Timeout : Type := {
  callback : Callback;
  ms : float;
  arg : PointerEvent.t
}.

(** Modelled from the spec: the timer half of the Event/Timer Registrar
    ([timeoutStore], not part of the analysed unit): "pending timers as
    cancelable handles keyed by purpose", with [add(timerKey, callback,
    delayMs, ...args)] and [remove(timerKey)], all released on clean-up. *)
Module TimeoutStore.
Definition t : Type := list (string * Timeout).

Definition remove (k : string) (st : t) : t :=
  filter (fun kt => negb (String.eqb (fst kt) k)) st.

Definition add (k : string) (c : Callback) (d : float)
    (e : PointerEvent.t) (st : t) : t :=
  (k, {| callback := c; ms := d; arg := e |}) :: remove k st.

Fixpoint find (k : string) (st : t) : option Timeout :=
  match st with
  | [] => None
  | (k', x) :: st' => if String.eqb k' k then Some x else find k st'
  end.

Definition clean (st : t) : t := [].
End TimeoutStore.

(** The engine instance and the host state its methods read or write:
    - [ctrlEventIds]: the events handed to [ctrl.setEventIds];
    - [emitted]: the snapshots handed to the consumer callback, oldest first;
    - [pointerCaptures]: the (target, pointer id) pairs holding pointer
      capture; [pointerLockElement]: [document.pointerLockElement];
      [pointerLockRequests]: the targets [requestPointerLock] was called on;
    - [pendingCancels]: the number of [setTimeout(..., 0)] callbacks queued
      by [cancel] that have not run yet. *)
Record Engine : Type := {
  state : State;
  eventStore : list Listener;
  timeoutStore : TimeoutStore.t;
  ctrlEventIds : list PointerEvent.t;
  emitted : list State;
  pointerCaptures : list (Element * option Z);
  pointerLockElement : option Element;
  pointerLockRequests : list Element;
  pendingCancels : nat
}.

Definition with_state (v : State) (w : Engine) : Engine :=
  {| state := v; eventStore := eventStore w; timeoutStore := timeoutStore w;
     ctrlEventIds := ctrlEventIds w; emitted := emitted w;
     pointerCaptures := pointerCaptures w;
     pointerLockElement := pointerLockElement w;
     pointerLockRequests := pointerLockRequests w;
     pendingCancels := pendingCancels w |}.

Definition with_eventStore (v : list Listener) (w : Engine) : Engine :=
  {| state := state w; eventStore := v; timeoutStore := timeoutStore w;
     ctrlEventIds := ctrlEventIds w; emitted := emitted w;
     pointerCaptures := pointerCaptures w;
     pointerLockElement := pointerLockElement w;
     pointerLockRequests := pointerLockRequests w;
     pendingCancels := pendingCancels w |}.

Definition with_timeoutStore (v : TimeoutStore.t) (w : Engine) : Engine :=
  {| state := state w; eventStore := eventStore w; timeoutStore := v;
     ctrlEventIds := ctrlEventIds w; emitted := emitted w;
     pointerCaptures := pointerCaptures w;
     pointerLockElement := pointerLockElement w;
     pointerLockRequests := pointerLockRequests w;
     pendingCancels := pendingCancels w |}.

Definition with_ctrlEventIds (v : list PointerEvent.t) (w : Engine) : Engine :=
  {| state := state w; eventStore := eventStore w;
     timeoutStore := timeoutStore w; ctrlEventIds := v; emitted := emitted w;
     pointerCaptures := pointerCaptures w;
     pointerLockElement := pointerLockElement w;
     pointerLockRequests := pointerLockRequests w;
     pendingCancels := pendingCancels w |}.

Definition with_emitted (v : list State) (w : Engine) : Engine :=
  {| state := state w; eventStore := eventStore w;
     timeoutStore := timeoutStore w; ctrlEventIds := ctrlEventIds w;
     emitted := v; pointerCaptures := pointerCaptures w;
     pointerLockElement := pointerLockElement w;
     pointerLockRequests := pointerLockRequests w;
     pendingCancels := pendingCancels w |}.

Definition with_pointerCaptures (v : list (Element * option Z)) (w : Engine) : Engine :=
  {| state := state w; eventStore := eventStore w;
     timeoutStore := timeoutStore w; ctrlEventIds := ctrlEventIds w;
     emitted := emitted w; pointerCaptures := v;
     pointerLockElement := pointerLockElement w;
     pointerLockRequests := pointerLockRequests w;
     pendingCancels := pendingCancels w |}.

Definition with_pointerLockElement (v : option Element) (w : Engine) : Engine :=
  {| state := state w; eventStore := eventStore w;
     timeoutStore := timeoutStore w; ctrlEventIds := ctrlEventIds w;
     emitted := emitted w; pointerCaptures := pointerCaptures w;
     pointerLockElement := v; pointerLockRequests := pointerLockRequests w;
     pendingCancels := pendingCancels w |}.

Definition with_pointerLockRequests (v : list Element) (w : Engine) : Engine :=
  {| state := state w; eventStore := eventStore w;
     timeoutStore := timeoutStore w; ctrlEventIds := ctrlEventIds w;
     emitted := emitted w; pointerCaptures := pointerCaptures w;
     pointerLockElement := pointerLockElement w; pointerLockRequests := v;
     pendingCancels := pendingCancels w |}.

Definition with_pendingCancels (v : nat) (w : Engine) : Engine :=
  {| state := state w; eventStore := eventStore w;
     timeoutStore := timeoutStore w; ctrlEventIds := ctrlEventIds w;
     emitted := emitted w; pointerCaptures := pointerCaptures w;
     pointerLockElement := pointerLockElement w;
     pointerLockRequests := pointerLockRequests w; pendingCancels := v |}.

Definition on_state (f : State -> State) (w : Engine) : Engine :=
  with_state (f (state w)) w.

(** ** The inherited methods *)

(** The methods of the parent classes that [DragEngine] calls.  [compute] is
    the Kinematics Provider: called with the event that triggered it, or with
    no event.

    [inheritedKeyDown] is what [keyDown] does to the engine when
    [KEYS_DELTA_MAP[event.key]] is a member inherited from
    [Object.prototype]: that value is truthy, so the handler calls it as
    the delta function, which throws or leaves a value that is not a vector
    in [_delta].  Neither outcome is a state of this model, so the result is
    a parameter about which nothing is assumed. *)
Record Base : Type := {
  super_reset : State -> State;
  start : Config.t -> Event -> State -> State;
  compute : Config.t -> option Event -> State -> State;
  inheritedKeyDown : Config.t -> KeyboardEvent.t -> Engine -> Engine
}.

(** The fields the drag engine itself assigns. *)
Definition owned (s : State) :=
  (_active s, _pointerActive s, _keyboardActive s, _pointerId s,
   _preventScroll s, _delayed s, _force s,
   (canceled s, tap s, swipe s, values s, initial s, _delta s, _movement s)).

(** The contract of the Kinematics Provider in the specification: it
    "updates movement/velocity/direction/distance/axis" and the time stamps;
    the fields assigned by the drag engine are left as they are. *)
Definition ComputeFrame (B : Base) : Prop :=
  forall c oe s, owned (compute B c oe s) = owned s.

(** Modelled from the spec: [Engine.emit] of the parent class (Emission
    contract: "the current immutable snapshot of GestureState is handed to a
    consumer callback").  Each call is recorded with the state it was made
    in, including the [_force] flag. *)
Definition emit (w : Engine) : Engine :=
  with_emitted (emitted w ++ [state w]) w.

(** Modelled from the spec: [Engine.clean] of the parent class, which
    releases the scoped listeners and timers ("listeners removed, timers
    canceled"). *)
Definition super_clean (w : Engine) : Engine :=
  with_timeoutStore (TimeoutStore.clean (timeoutStore w)) (with_eventStore [] w).

(** [this.ctrl.setEventIds(event)]: the controller's bookkeeping of pointer
    ids; the controller is outside the gesture state, the call is recorded. *)
Definition setEventIds (e : PointerEvent.t) (w : Engine) : Engine :=
  with_ctrlEventIds (ctrlEventIds w ++ [e]) w.

Definition capture_eqb (a b : Element * option Z) : bool :=
  Nat.eqb (fst a) (fst b) && id_eqb (snd a) (snd b).

Definition hasPointerCapture (c : Element * option Z) (w : Engine) : bool :=
  existsb (capture_eqb c) (pointerCaptures w).

Definition setPointerCapture (c : Element * option Z) (w : Engine) : Engine :=
  with_pointerCaptures (c :: pointerCaptures w) w.

Definition releasePointerCapture (c : Element * option Z) (w : Engine)
  : Engine :=
  with_pointerCaptures
    (filter (fun x => negb (capture_eqb c x)) (pointerCaptures w)) w.

(** Modelled from the spec: the event half of the Event/Timer Registrar
    ([eventStore], not part of the analysed unit), a "scoped subscription to
    input events"; the subscriptions are kept in registration order. *)
Definition eventStore_add (d p : string) (h : Handler) (w : Engine) : Engine :=
  with_eventStore
    (eventStore w ++ [{| l_device := d; l_phase := p; l_handler := h |}]) w.

Definition timeoutStore_add (k : string) (c : Callback) (d : float)
    (e : PointerEvent.t) (w : Engine) : Engine :=
  with_timeoutStore (TimeoutStore.add k c d e (timeoutStore w)) w.

Definition timeoutStore_remove (k : string) (w : Engine) : Engine :=
  with_timeoutStore (TimeoutStore.remove k (timeoutStore w)) w.

(** ** Keyboard displacement table *)

Definition DISPLACEMENT : float := 10.

(** The own entries of the object literal [KEYS_DELTA_MAP]. *)
Definition KEYS_DELTA_MAP (k : string) : option (float -> Vector2) :=
  if String.eqb k "ArrowRight" then
    Some (fun factor => (DISPLACEMENT * factor, 0))
  else if String.eqb k "ArrowLeft" then
    Some (fun factor => (- DISPLACEMENT * factor, 0))
  else if String.eqb k "ArrowUp" then
    Some (fun factor => (0, - DISPLACEMENT * factor))
  else if String.eqb k "ArrowDown" then
    Some (fun factor => (0, DISPLACEMENT * factor))
  else None.

(** [k] is one of the table's own keys, the four arrow keys. *)
Definition is_arrow (k : string) : bool :=
  match KEYS_DELTA_MAP k with
  | Some _ => true
  | None => false
  end.

(** The property names an object literal inherits from [Object.prototype]
    (ECMAScript: the properties of the Object prototype object, with the
    legacy accessors of Annex B). *)
Definition objectPrototypeNames : list string :=
  ["constructor"; "hasOwnProperty"; "isPrototypeOf"; "propertyIsEnumerable";
   "toLocaleString"; "toString"; "valueOf"; "__proto__";
   "__defineGetter__"; "__defineSetter__"; "__lookupGetter__";
   "__lookupSetter__"].

Definition inheritedKey (k : string) : bool :=
  existsb (String.eqb k) objectPrototypeNames.

(** [event.key in KEYS_DELTA_MAP]: own and inherited properties. *)
Definition inTable (k : string) : bool := is_arrow k || inheritedKey k.

(** [KEYS_DELTA_MAP[event.key]]: an own delta function, a member inherited
    from [Object.prototype] (truthy, not a delta function), or
    [undefined]. *)
Inductive Member : Type :=
| OwnDelta (deltaFn : float -> Vector2)
| InheritedMember
| NoMember.

Definition lookupKey (k : string) : Member :=
  match KEYS_DELTA_MAP k with
  | Some deltaFn => OwnDelta deltaFn
  | None => if inheritedKey k then InheritedMember else NoMember
  end.

(** [event.shiftKey ? 10 : event.altKey ? 0.1 : 1] *)
Definition key_factor (e : KeyboardEvent.t) : float :=
  if KeyboardEvent.shiftKey e then 10
  else if KeyboardEvent.altKey e then 0.1
  else 1.

(** ** The methods of [DragEngine] *)

Section DragEngine.

Variable B : Base.
Variable config : Config.t.

(** [this.compute(event)] / [this.compute()] *)
Definition computeWith (oe : option Event) (w : Engine) : Engine :=
  on_state (compute B config oe) w.

(** [reset]: the generic reset, then the drag-specific fields.  (The bound
    [state.cancel] closure is the method [cancel] below.) *)
Definition reset (s : State) : State :=
  set_canceled false
    (set_tap false
      (set_swipe (0, 0)
        (set_delayed false
          (set_preventScroll false
            (set_keyboardActive false
              (set_pointerActive false
                (set_pointerId None (super_reset B s)))))))).

(** [cancel]: the guard reads [canceled] at call time; the body is queued
    with [setTimeout(..., 0)]. *)
Definition cancel (w : Engine) : Engine :=
  if canceled (state w) then w
  else with_pendingCancels (S (pendingCancels w)) w.

(** The queued body of [cancel]. *)
Definition cancelCallback (w : Engine) : Engine :=
  emit
    (computeWith None
      (on_state (fun s => set_active false (set_canceled true s)) w)).

(** The host runs the oldest queued [cancel] body, if any. *)
Definition runPendingCancel (w : Engine) : Engine :=
  match pendingCancels w with
  | O => w
  | S n => cancelCallback (with_pendingCancels n w)
  end.

Definition setActive (w : Engine) : Engine :=
  on_state
    (fun s => set_active (_pointerActive s || _keyboardActive s) s) w.

Definition pointerClean (w : Engine) : Engine :=
  if Config.pointerLock config
     && node_eqb (pointerLockElement w) (currentTarget (state w))
  then with_pointerLockElement None w
  else w.

Definition clean (w : Engine) : Engine :=
  super_clean
    (on_state (set_keyboardActive false)
      (on_state (set_pointerActive false) (pointerClean w))).

Definition startPointerDrag (e : PointerEvent.t) (w : Engine) : Engine :=
  emit
    (computeWith (Some (OfPointer e))
      (on_state
        (fun s =>
           set_delayed false (set_preventScroll true (set_active true s)))
        w)).

(** [setupPointer], without its development-only console warning. *)
Definition setupPointer (e : PointerEvent.t) (w : Engine) : Engine :=
  let w1 :=
    if Config.pointerLock config then
      with_pointerLockRequests
        (pointerLockRequests w ++ [PointerEvent.currentTarget e]) w
    else w in
  if negb (Config.pointerCapture config) then
    eventStore_add (Config.device config) "end" HPointerUp
      (eventStore_add (Config.device config) "change" HPointerMove w1)
  else w1.

Definition setupScrollPrevention (e : PointerEvent.t) (w : Engine)
  : Engine :=
  timeoutStore_add "startPointerDrag" CbStartPointerDrag
    (Config.preventScroll config) e
    (eventStore_add "touch" "cancel" HClean
      (eventStore_add "touch" "end" HClean
        (eventStore_add "touch" "change" HPreventScroll w))).

Definition setupDelayTrigger (e : PointerEvent.t) (w : Engine) : Engine :=
  timeoutStore_add "dragDelay" CbStartPointerDrag (Config.delay config) e
    (on_state (set_delayed true) w).

Definition pointerDown (e : PointerEvent.t) (w : Engine) : Engine :=
  let w1 := setEventIds e w in
  let w2 :=
    if Config.pointerCapture config then
      setPointerCapture (PointerEvent.target e, PointerEvent.pointerId e) w1
    else w1 in
  if _pointerActive (state w2) then w2
  else
    let w3 := on_state (start B config (OfPointer e)) w2 in
    let w4 := setupPointer e w3 in
    let w5 :=
      on_state
        (fun s =>
           let s1 := set_pointerActive true (set_pointerId (pointerId e) s) in
           let s2 := set_values (pointerValues e) s1 in
           set_initial (values s2) s2)
        w4 in
    if truthy (Config.preventScroll config) then setupScrollPrevention e w5
    else if 0 <? Config.delay config then setupDelayTrigger e w5
    else startPointerDrag e w5.

(** [state.type === event.type && event.timeStamp === state.timeStamp] *)
Definition duplicate (s : State) (e : PointerEvent.t) : bool :=
  type_eqb (type s) (PointerEvent.type e)
  && (PointerEvent.timeStamp e =? timeStamp s).

(** [state._pointerId && id !== state._pointerId] *)
Definition foreign (s : State) (e : PointerEvent.t) : bool :=
  truthy_id (_pointerId s) && negb (id_eqb (pointerId e) (_pointerId s)).

(** The delta assignment of [pointerMove]: the relative movement when the
    event's target holds the pointer lock, otherwise the difference to the
    stored position, which is then advanced. *)
Definition sample (lock : option Element) (e : PointerEvent.t) (s : State)
  : State :=
  if node_eqb lock (Some (PointerEvent.target e)) then
    set_delta (PointerEvent.movementX e, PointerEvent.movementY e) s
  else
    set_values (pointerValues e)
      (set_delta (V.sub (pointerValues e) (values s)) s).

(** [V.addTo(state._movement, state._delta)] *)
Definition accumulate (s : State) : State :=
  set_movement (V.addTo (_movement s) (_delta s)) s.

Definition pointerMove (e : PointerEvent.t) (w : Engine) : Engine :=
  if negb (_pointerActive (state w)) then w
  else if duplicate (state w) e then w
  else if foreign (state w) e then w
  else
    let w1 :=
      computeWith (Some (OfPointer e))
        (on_state
          (fun s => accumulate (sample (pointerLockElement w) e s)) w) in
    if _delayed (state w1) then
      startPointerDrag e (timeoutStore_remove "dragDelay" w1)
    else if truthy (Config.preventScroll config)
            && negb (_preventScroll (state w1)) then
      match axis (state w1) with
      | Some a =>
          if axis_matches a (Config.preventScrollAxis config)
             || is_xy (Config.preventScrollAxis config)
          then clean (on_state (set_active false) w1)
          else
            startPointerDrag e (timeoutStore_remove "startPointerDrag" w1)
      | None => w1
      end
    else emit w1.

(** The swipe test of [pointerUp] on the state [s] after the final
    kinematics pass. *)
Definition swipeTest (s : State) : State :=
  let '(dirx, diry) := direction s in
  let '(vx, vy) := velocity s in
  let '(mx, my) := movement s in
  let '(svx, svy) := Config.swipeVelocity config in
  let '(sx, sy) := Config.swipeDistance config in
  let sdt := Config.swipeDuration config in
  if elapsedTime s <? sdt then
    let s1 :=
      if (svx <? abs vx) && (sx <? abs mx)
      then set_swipe (dirx, snd (swipe s)) s else s in
    if (svy <? abs vy) && (sy <? abs my)
    then set_swipe (fst (swipe s1), diry) s1 else s1
  else s.

(** The classification of [pointerUp]: tap test, then either the forced
    emission flag or the swipe test. *)
Definition classify (s : State) : State :=
  let '(dx, dy) := _distance s in
  let s1 := set_tap ((dx <=? 3) && (dy <=? 3)) s in
  if tap s1 && Config.filterTaps config then set_force true s1
  else swipeTest s1.

(** [pointerUp].  Releasing the capture may throw on the host; the engine
    catches that and only warns, so the release is modelled as total. *)
Definition pointerUp (e : PointerEvent.t) (w : Engine) : Engine :=
  let w1 := setEventIds e w in
  let c := (PointerEvent.target e, PointerEvent.pointerId e) in
  let w2 :=
    if Config.pointerCapture config && hasPointerCapture c w1
    then releasePointerCapture c w1 else w1 in
  if negb (_pointerActive (state w2)) then w2
  else if foreign (state w2) e then w2
  else
    let w3 :=
      computeWith (Some (OfPointer e))
        (setActive (on_state (set_pointerActive false) w2)) in
    emit (on_state classify w3).

(** [pointerClick]: does the click interceptor suppress the click? *)
Definition pointerClick (w : Engine) : bool := negb (tap (state w)).

(** [preventScroll]: does the touch-move listener call
    [preventDefault]? *)
Definition preventScroll (e : PointerEvent.t) (w : Engine) : bool :=
  _preventScroll (state w) && PointerEvent.cancelable e.

Definition keyDown (e : KeyboardEvent.t) (w : Engine) : Engine :=
  match lookupKey (KeyboardEvent.key e) with
  | OwnDelta deltaFn =>
      let factor := key_factor e in
      let w1 := on_state (set_delta (deltaFn factor)) w in
      let w2 := on_state (start B config (OfKey e)) w1 in
      let w3 := on_state (set_keyboardActive true) w2 in
      let w4 := on_state accumulate w3 in
      emit (computeWith (Some (OfKey e)) w4)
  | InheritedMember => inheritedKeyDown B config e w
  | NoMember => w
  end.

Definition keyUp (e : KeyboardEvent.t) (w : Engine) : Engine :=
  if negb (inTable (KeyboardEvent.key e)) then w
  else
    emit
      (computeWith (Some (OfKey e))
        (setActive (on_state (set_keyboardActive false) w))).

(** Modelled from the spec: a pending timer of the timer store elapses
    ("Delay-Pending -> on timer fire: transitions to Dragging using the event
    captured at delay-scheduling time"); its callback runs with the argument
    it was registered with.  A key with no pending timer does nothing ("a
    fired timer callback that was already canceled must not execute"). *)
Definition fireTimeout (k : string) (w : Engine) : Engine :=
  match TimeoutStore.find k (timeoutStore w) with
  | Some t =>
      match callback t with
      | CbStartPointerDrag =>
          startPointerDrag (arg t) (timeoutStore_remove k w)
      end
  | None => w
  end.

(** ** Runs of the engine *)

Inductive Input : Type :=
| PointerDown (e : PointerEvent.t)
| PointerMove (e : PointerEvent.t)
| PointerUp (e : PointerEvent.t)
| KeyDown (e : KeyboardEvent.t)
| KeyUp (e : KeyboardEvent.t)
| Cancel
| RunPendingCancel
| FireTimeout (k : string)
| Clean.

Definition step (w : Engine) (i : Input) : Engine :=
  match i with
  | PointerDown e => pointerDown e w
  | PointerMove e => pointerMove e w
  | PointerUp e => pointerUp e w
  | KeyDown e => keyDown e w
  | KeyUp e => keyUp e w
  | Cancel => cancel w
  | RunPendingCancel => runPendingCancel w
  | FireTimeout k => fireTimeout k w
  | Clean => clean w
  end.

Definition run (w : Engine) (inputs : list Input) : Engine :=
  fold_left step inputs w.

End DragEngine.

(** ** A reference implementation of the inherited methods *)

Module Ref.

Definition eventType (ev : Event) : string :=
  match ev with
  | OfPointer e => PointerEvent.type e
  | OfKey e => KeyboardEvent.type e
  end.

Definition eventTimeStamp (ev : Event) : float :=
  match ev with
  | OfPointer e => PointerEvent.timeStamp e
  | OfKey e => KeyboardEvent.timeStamp e
  end.

Definition eventCurrentTarget (ev : Event) : Element :=
  match ev with
  | OfPointer e => PointerEvent.currentTarget e
  | OfKey e => KeyboardEvent.currentTarget e
  end.

(** [Math.sign] *)
Definition sign (x : float) : float :=
  if 0 <? x then 1 else if x <? 0 then -1 else x.

Definition selectAxis (m : Vector2) : option Axis :=
  if abs (snd m) <? abs (fst m) then Some AxisX
  else if abs (fst m) <? abs (snd m) then Some AxisY
  else None.

(** Modelled from the spec: the Kinematics Provider ([compute] of the
    parent classes), "given a raw 2D delta and elapsed time, updates
    movement, velocity, direction, distance, axis"; "called with no event
    for cancellation/teardown passes (meaning: freeze/derive without
    treating it as new input)".  Bounds are left unconstrained.  While the
    gesture is active the absolute delta is added to the distance
    travelled; the axis, once determined, is kept. *)
Definition compute (c : Config.t) (oe : option Event) (s : State) : State :=
  match oe with
  | None => s
  | Some ev =>
      let dt := eventTimeStamp ev - timeStamp s in
      {| _active := _active s; _pointerActive := _pointerActive s;
         _keyboardActive := _keyboardActive s; _pointerId := _pointerId s;
         _preventScroll := _preventScroll s; _delayed := _delayed s;
         _force := _force s; canceled := canceled s; tap := tap s;
         swipe := swipe s; values := values s; initial := initial s;
         _delta := _delta s; _movement := _movement s;
         _distance :=
           if _active s
           then V.addTo (_distance s) (abs (fst (_delta s)), abs (snd (_delta s)))
           else _distance s;
         movement := _movement s;
         direction := (sign (fst (_delta s)), sign (snd (_delta s)));
         velocity :=
           if 0 <? dt
           then (abs (fst (_delta s)) / dt, abs (snd (_delta s)) / dt)
           else velocity s;
         axis :=
           match axis s with
           | Some a => Some a
           | None => selectAxis (_movement s)
           end;
         type := Some (eventType ev);
         timeStamp := eventTimeStamp ev;
         startTime := startTime s;
         elapsedTime := eventTimeStamp ev - startTime s;
         currentTarget := currentTarget s |}
  end.

(** Modelled from the spec: the generic [reset] of the parent class; the
    per-gesture accumulators and derived values return to their
    defaults. *)
Definition super_reset (s : State) : State :=
  {| _active := false; _pointerActive := _pointerActive s;
     _keyboardActive := _keyboardActive s; _pointerId := _pointerId s;
     _preventScroll := _preventScroll s; _delayed := _delayed s;
     _force := false; canceled := canceled s; tap := tap s;
     swipe := swipe s; values := values s; initial := initial s;
     _delta := _delta s; _movement := (0, 0); _distance := (0, 0);
     movement := (0, 0); direction := (0, 0); velocity := (0, 0);
     axis := None; type := type s; timeStamp := timeStamp s;
     startTime := startTime s; elapsedTime := 0;
     currentTarget := currentTarget s |}.

Definition stamp (ev : Event) (s : State) : State :=
  {| _active := _active s; _pointerActive := _pointerActive s;
     _keyboardActive := _keyboardActive s; _pointerId := _pointerId s;
     _preventScroll := _preventScroll s; _delayed := _delayed s;
     _force := _force s; canceled := canceled s; tap := tap s;
     swipe := swipe s; values := values s; initial := initial s;
     _delta := _delta s; _movement := _movement s;
     _distance := _distance s; movement := movement s;
     direction := direction s; velocity := velocity s; axis := axis s;
     type := type s; timeStamp := eventTimeStamp ev;
     startTime := eventTimeStamp ev; elapsedTime := elapsedTime s;
     currentTarget := Some (eventCurrentTarget ev) |}.

(** Modelled from the spec: [start] of the parent class, "the reset call
    preceding each fresh pointer-down": a gesture that is not in progress
    is reset (through the drag engine's [reset]) and its start time is
    taken from the event. *)
Definition start (c : Config.t) (ev : Event) (s : State) : State :=
  if _active s then s
  else
    stamp ev
      (reset
         (Build_Base super_reset (fun _ _ s0 => s0) compute
            (fun _ _ w => w)) s).

End Ref.

(** The reference implementation.  For a key-down on an inherited member
    it takes the outcome in which the call throws before anything is
    assigned; no property relies on that choice. *)
Definition refBase : Base :=
  {| super_reset := Ref.super_reset;
     start := Ref.start;
     compute := Ref.compute;
     inheritedKeyDown := fun _ _ w => w |}.

(** Modelled from the spec: a second implementation of the inherited
    methods.  It differs from the reference one in the generic reset only,
    which also returns [_delta], "the latest incremental movement since the
    previous sample", to [(0, 0)] when a gesture starts. *)
Definition clearing_super_reset (s : State) : State :=
  set_delta (0, 0) (Ref.super_reset s).

(** The [start] of that implementation: as the reference one, over
    [clearing_super_reset]. *)
Definition clearing_start (c : Config.t) (ev : Event) (s : State) : State :=
  if _active s then s
  else
    Ref.stamp ev
      (reset
         (Build_Base clearing_super_reset (fun _ _ s0 => s0) Ref.compute
            (fun _ _ w => w)) s).

Definition clearingBase : Base :=
  {| super_reset := clearing_super_reset;
     start := clearing_start;
     compute := Ref.compute;
     inheritedKeyDown := fun _ _ w => w |}.

(** A state with every field at its zero value, and the engine right after
    construction. *)
Definition blank : State :=
  {| _active := false; _pointerActive := false; _keyboardActive := false;
     _pointerId := None; _preventScroll := false; _delayed := false;
     _force := false; canceled := false; tap := false; swipe := (0, 0);
     values := (0, 0); initial := (0, 0); _delta := (0, 0);
     _movement := (0, 0); _distance := (0, 0); movement := (0, 0);
     direction := (0, 0); velocity := (0, 0); axis := None; type := None;
     timeStamp := 0; startTime := 0; elapsedTime := 0;
     currentTarget := None |}.

Definition newEngine (B : Base) : Engine :=
  {| state := reset B blank; eventStore := []; timeoutStore := [];
     ctrlEventIds := []; emitted := []; pointerCaptures := [];
     pointerLockElement := None; pointerLockRequests := [];
     pendingCancels := 0 |}.

(** Default options: no capture, no lock, no scroll prevention, no delay, no
    tap filtering, and the swipe thresholds velocity 0.5, distance 50,
    duration 250. *)
Definition defaultConfig : Config.t :=
  {| Config.device := "pointer"; Config.pointerCapture := false;
     Config.pointerLock := false; Config.preventScroll := 0;
     Config.preventScrollAxis := ScrollY; Config.delay := 0;
     Config.filterTaps := false; Config.swipeVelocity := (0.5, 0.5);
     Config.swipeDistance := (50, 50); Config.swipeDuration := 250 |}.

(** Sample events. *)
Definition pev (ty : string) (t : float) (id : Z) (x y : float)
  : PointerEvent.t :=
  {| PointerEvent.type := ty; PointerEvent.timeStamp := t;
     PointerEvent.pointerId := Some id; PointerEvent.clientX := x;
     PointerEvent.clientY := y; PointerEvent.movementX := 0;
     PointerEvent.movementY := 0; PointerEvent.target := 1%nat;
     PointerEvent.currentTarget := 1%nat; PointerEvent.cancelable := true |}.

Definition kev (ty : string) (t : float) (k : string) (shift alt : bool)
  : KeyboardEvent.t :=
  {| KeyboardEvent.type := ty; KeyboardEvent.timeStamp := t;
     KeyboardEvent.key := k; KeyboardEvent.shiftKey := shift;
     KeyboardEvent.altKey := alt; KeyboardEvent.target := 1%nat;
     KeyboardEvent.currentTarget := 1%nat |}.

(** ** Notions used in the statements *)

(** A pointer-move passes the three guards of [pointerMove]. *)
Definition accepts (s : State) (e : PointerEvent.t) : bool :=
  _pointerActive s && negb (duplicate s e) && negb (foreign s e).

(** A pointer-up passes the two guards of [pointerUp]. *)
Definition ends (s : State) (e : PointerEvent.t) : bool :=
  _pointerActive s && negb (foreign s e).

(** The displacement [deltaFn(factor)] of a key-down event. *)
Definition keyDelta (e : KeyboardEvent.t) : option Vector2 :=
  match KEYS_DELTA_MAP (KeyboardEvent.key e) with
  | Some deltaFn => Some (deltaFn (key_factor e))
  | None => None
  end.

(** The pointer phases of the specification, read off the guards of
    [pointerMove]: the branch an accepted pointer-move takes after its
    kinematics pass. *)
Inductive Phase : Type :=
| Idle
| DelayPending
| ScrollPending
| Dragging.

Definition phase (config : Config.t) (s : State) : Phase :=
  if negb (_pointerActive s) then Idle
  else if _delayed s then DelayPending
  else if truthy (Config.preventScroll config) && negb (_preventScroll s)
  then ScrollPending
  else Dragging.

(** The state [startPointerDrag] hands to the consumer when it runs with
    event [e] on state [s]. *)
Definition dragStarted (B : Base) (config : Config.t) (e : PointerEvent.t)
    (s : State) : State :=
  compute B config (Some (OfPointer e))
    (set_delayed false (set_preventScroll true (set_active true s))).

(** The state of an accepted pointer-move after its kinematics pass. *)
Definition moved (B : Base) (config : Config.t) (e : PointerEvent.t)
    (w : Engine) : State :=
  compute B config (Some (OfPointer e))
    (accumulate (sample (pointerLockElement w) e (state w))).

(** Options with a delayed activation of 200 ms, and options with scroll
    prevention on the vertical axis after 250 ms. *)
Definition delayConfig : Config.t :=
  {| Config.device := "pointer"; Config.pointerCapture := false;
     Config.pointerLock := false; Config.preventScroll := 0;
     Config.preventScrollAxis := ScrollY; Config.delay := 200;
     Config.filterTaps := false; Config.swipeVelocity := (0.5, 0.5);
     Config.swipeDistance := (50, 50); Config.swipeDuration := 250 |}.

Definition scrollConfig : Config.t :=
  {| Config.device := "touch"; Config.pointerCapture := false;
     Config.pointerLock := false; Config.preventScroll := 250;
     Config.preventScrollAxis := ScrollY; Config.delay := 0;
     Config.filterTaps := false; Config.swipeVelocity := (0.5, 0.5);
     Config.swipeDistance := (50, 50); Config.swipeDuration := 250 |}.

(** The per-event deltas of a sequence of pointer-moves, given the element
    holding the pointer lock and the last stored absolute position: the
    reported relative movement when the event's target holds the lock,
    otherwise the difference between consecutive absolute positions. *)
Fixpoint deltas (lock : option Element) (last : Vector2)
    (es : list PointerEvent.t) : list Vector2 :=
  match es with
  | [] => []
  | e :: es' =>
      if node_eqb lock (Some (PointerEvent.target e)) then
        (PointerEvent.movementX e, PointerEvent.movementY e)
        :: deltas lock last es'
      else
        V.sub (pointerValues e) last :: deltas lock (pointerValues e) es'
  end.

(** A sequence of pointer-move events handled in arrival order. *)
Definition pointerMoves (B : Base) (config : Config.t)
    (es : list PointerEvent.t) (w : Engine) : Engine :=
  fold_left (fun w' e => pointerMove B config e w') es w.

(** Every event of the sequence passes the guards of [pointerMove] in the
    state it arrives in. *)
Fixpoint allAccepted (B : Base) (config : Config.t)
    (es : list PointerEvent.t) (w : Engine) : bool :=
  match es with
  | [] => true
  | e :: es' =>
      accepts (state w) e && allAccepted B config es' (pointerMove B config e w)
  end.

(** ** Wiring of the handlers *)








(** The listeners [setupPointer] registers on the shared window. *)
Definition pointerListeners (config : Config.t) : list Listener :=
  if Config.pointerCapture config then []
  else
    [{| l_device := Config.device config; l_phase := "change";
        l_handler := HPointerMove |};
     {| l_device := Config.device config; l_phase := "end";
        l_handler := HPointerUp |}].

(** The listeners [setupScrollPrevention] registers. *)
Definition scrollListeners : list Listener :=
  [{| l_device := "touch"; l_phase := "change";
      l_handler := HPreventScroll |};
   {| l_device := "touch"; l_phase := "end"; l_handler := HClean |};
   {| l_device := "touch"; l_phase := "cancel"; l_handler := HClean |}].

(** Options with pointer capture and tap filtering. *)
Definition captureConfig : Config.t :=
  {| Config.device := "pointer"; Config.pointerCapture := true;
     Config.pointerLock := false; Config.preventScroll := 0;
     Config.preventScrollAxis := ScrollY; Config.delay := 0;
     Config.filterTaps := true; Config.swipeVelocity := (0.5, 0.5);
     Config.swipeDistance := (50, 50); Config.swipeDuration := 250 |}.

(** An input whose handler stays within the typed state: every input but a
    key-down on a member inherited from [Object.prototype]. *)
Definition typedInput (i : Input) : bool :=
  match i with
  | KeyDown e => negb (inheritedKey (KeyboardEvent.key e))
  | _ => true
  end.

(** * Properties *)

Lemma ref_frame : ComputeFrame refBase.
Proof. intros c [ev|] s; reflexivity. Qed.

Section Frame.

Variable B : Base.
Hypothesis F : ComputeFrame B.

Lemma frame_active c oe s : _active (compute B c oe s) = _active s.
Proof. pose proof (F c oe s) as H; unfold owned in H; congruence. Qed.

Lemma frame_pointerActive c oe s :
  _pointerActive (compute B c oe s) = _pointerActive s.
Proof. pose proof (F c oe s) as H; unfold owned in H; congruence. Qed.

Lemma frame_keyboardActive c oe s :
  _keyboardActive (compute B c oe s) = _keyboardActive s.
Proof. pose proof (F c oe s) as H; unfold owned in H; congruence. Qed.

Lemma frame_pointerId c oe s : _pointerId (compute B c oe s) = _pointerId s.
Proof. pose proof (F c oe s) as H; unfold owned in H; congruence. Qed.

Lemma frame_preventScroll c oe s :
  _preventScroll (compute B c oe s) = _preventScroll s.
Proof. pose proof (F c oe s) as H; unfold owned in H; congruence. Qed.

Lemma frame_delayed c oe s : _delayed (compute B c oe s) = _delayed s.
Proof. pose proof (F c oe s) as H; unfold owned in H; congruence. Qed.

Lemma frame_canceled c oe s : canceled (compute B c oe s) = canceled s.
Proof. pose proof (F c oe s) as H; unfold owned in H; congruence. Qed.

Lemma frame_swipe c oe s : swipe (compute B c oe s) = swipe s.
Proof. pose proof (F c oe s) as H; unfold owned in H; congruence. Qed.

Lemma frame_values c oe s : values (compute B c oe s) = values s.
Proof. pose proof (F c oe s) as H; unfold owned in H; congruence. Qed.

Lemma frame_delta c oe s : _delta (compute B c oe s) = _delta s.
Proof. pose proof (F c oe s) as H; unfold owned in H; congruence. Qed.

Lemma frame_movement c oe s : _movement (compute B c oe s) = _movement s.
Proof. pose proof (F c oe s) as H; unfold owned in H; congruence. Qed.

End Frame.

Create Rewrite HintDb frame.
#[local] Hint Rewrite frame_active frame_pointerActive frame_keyboardActive
  frame_pointerId frame_preventScroll frame_delayed frame_canceled
  frame_swipe frame_values frame_delta frame_movement
  using assumption : frame.

(** ** Key lookup *)

Lemma arrow_inTable (k : string) : is_arrow k = true -> inTable k = true.
Proof. unfold inTable. intros ->. reflexivity. Qed.

Lemma own_lookup (k : string) (deltaFn : float -> Vector2) :
  KEYS_DELTA_MAP k = Some deltaFn -> lookupKey k = OwnDelta deltaFn.
Proof. unfold lookupKey. intros ->. reflexivity. Qed.


(** ** Key up *)

(** C10: for every key-up of an arrow key, in any engine state (also one
    with [_keyboardActive] already false and no gesture in progress), the
    handler clears [_keyboardActive], derives [_active] as the OR of the
    source flags, runs a kinematics pass with the event and emits one
    snapshot, the state that pass returned. *)
Theorem keyUp_arrow_always_emits (B : Base) (config : Config.t)
    (e : KeyboardEvent.t) (w : Engine) :
  ComputeFrame B ->
  is_arrow (KeyboardEvent.key e) = true ->
  let w0 := setActive (on_state (set_keyboardActive false) w) in
  let r := keyUp B config e w in
  _keyboardActive (state w0) = false
  /\ _active (state w0) = (_pointerActive (state w) || false)
  /\ state r = compute B config (Some (OfKey e)) (state w0)
  /\ emitted r = emitted w ++ [state r]
  /\ _keyboardActive (state r) = false
  /\ _active (state r) = (_pointerActive (state r) || _keyboardActive (state r)).
Proof.
  intros F Hk w0 r.
  assert (Hr : r = emit (computeWith B config (Some (OfKey e)) w0)).
  { unfold r, keyUp. rewrite (arrow_inTable _ Hk). reflexivity. }
  rewrite Hr. cbn.
  autorewrite with frame. cbn.
  repeat split; reflexivity.
Qed.

Lemma keyUp_arrow_always_emits_witness :
  let e := kev "keyup" 5 "ArrowLeft" false false in
  let w := newEngine refBase in
  _keyboardActive (state w) = false
  /\ _active (state w) = false
  /\ emitted (keyUp refBase defaultConfig e w)
     = [state (keyUp refBase defaultConfig e w)].
Proof.
  intros e w.
  pose proof (keyUp_arrow_always_emits refBase defaultConfig e w ref_frame
                eq_refl) as H.
  cbv zeta in H.
  destruct H as (_ & _ & _ & H & _).
  split; [reflexivity|].
  split; [reflexivity|].
  exact H.
Defined.

(** ** Key down *)





Lemma clearing_frame : ComputeFrame clearingBase.
Proof. intros c [ev|] s; reflexivity. Qed.


(** ** Pointer up *)

Lemma pointerUp_ends (B : Base) (config : Config.t) (e : PointerEvent.t)
    (w : Engine) :
  ends (state w) e = true ->
  let s0 := state (setActive (on_state (set_pointerActive false) w)) in
  let s1 := compute B config (Some (OfPointer e)) s0 in
  state (pointerUp B config e w) = classify config s1
  /\ emitted (pointerUp B config e w) = emitted w ++ [classify config s1].
Proof.
  unfold ends, pointerUp. intros H.
  apply andb_true_iff in H. destruct H as [Ha Hf].
  apply negb_true_iff in Hf.
  destruct (Config.pointerCapture config
            && hasPointerCapture
                 (PointerEvent.target e, PointerEvent.pointerId e)
                 (setEventIds e w)); cbn; rewrite Ha, Hf; cbn;
    split; reflexivity.
Qed.

Lemma pointerUp_ignored (B : Base) (config : Config.t) (e : PointerEvent.t)
    (w : Engine) :
  ends (state w) e = false ->
  state (pointerUp B config e w) = state w
  /\ emitted (pointerUp B config e w) = emitted w
  /\ timeoutStore (pointerUp B config e w) = timeoutStore w.
Proof.
  unfold ends, pointerUp. intros H.
  destruct (Config.pointerCapture config
            && hasPointerCapture
                 (PointerEvent.target e, PointerEvent.pointerId e)
                 (setEventIds e w)); cbn;
    destruct (_pointerActive (state w)); cbn in *;
    try (repeat split; reflexivity);
    apply negb_false_iff in H; rewrite H; repeat split; reflexivity.
Qed.

Ltac split_state s :=
  destruct s; cbn in *;
  repeat match goal with
         | p : Vector2 |- _ => destruct p
         end; cbn in *.

Ltac case_ifs :=
  repeat match goal with
         | |- context [if ?b then _ else _] => destruct b eqn:?; cbn in *
         end.

Lemma classify_tap (config : Config.t) (s : State) :
  tap (classify config s)
  = ((fst (_distance s) <=? 3) && (snd (_distance s) <=? 3))
  /\ _distance (classify config s) = _distance s.
Proof.
  unfold classify, swipeTest.
  destruct (Config.swipeVelocity config), (Config.swipeDistance config).
  split_state s. case_ifs; split; reflexivity.
Qed.

(** C1: a pointer-up that ends the active pointer gesture sets [tap] to true
    exactly when, after the final kinematics pass, both components of the
    distance travelled are [<= 3]; a component equal to 4 gives
    [tap = false]. *)
Theorem pointerUp_tap_iff (B : Base) (config : Config.t)
    (e : PointerEvent.t) (w : Engine) :
  ends (state w) e = true ->
  let s1 :=
    compute B config (Some (OfPointer e))
      (state (setActive (on_state (set_pointerActive false) w))) in
  let r := pointerUp B config e w in
  _distance (state r) = _distance s1
  /\ (tap (state r) = true <->
      (fst (_distance s1) <=? 3) = true /\ (snd (_distance s1) <=? 3) = true)
  /\ (fst (_distance s1) = 4 \/ snd (_distance s1) = 4 ->
      tap (state r) = false).
Proof.
  intros H s1 r.
  destruct (pointerUp_ends B config e w H) as [Hs _].
  fold s1 in Hs. unfold r. rewrite Hs.
  destruct (classify_tap config s1) as [Ht Hd].
  rewrite Ht, Hd. split; [reflexivity|]. split.
  - apply andb_true_iff.
  - intros [E | E]; rewrite E.
    + reflexivity.
    + apply andb_false_iff. right. reflexivity.
Qed.

Lemma pointerUp_tap_iff_witness :
  let w :=
    run refBase defaultConfig (newEngine refBase)
      [PointerDown (pev "pointerdown" 0 1 10 10);
       PointerMove (pev "pointermove" 8 1 12 11)] in
  let up := pev "pointerup" 16 1 12 11 in
  ends (state w) up = true
  /\ _distance (state (pointerUp refBase defaultConfig up w)) = (2, 1)
  /\ tap (state (pointerUp refBase defaultConfig up w)) = true.
Proof.
  intros w up.
  split; [reflexivity|].
  destruct (pointerUp_tap_iff refBase defaultConfig up w eq_refl)
    as (Hd & Ht & _).
  split.
  - rewrite Hd. reflexivity.
  - apply Ht. split; reflexivity.
Defined.





(** ** Timers *)

Lemma find_remove_same (k : string) (st : TimeoutStore.t) :
  TimeoutStore.find k (TimeoutStore.remove k st) = None.
Proof.
  induction st as [|[k' x] st IH]; cbn; [reflexivity|].
  destruct (String.eqb k' k) eqn:E; cbn; [exact IH|].
  rewrite E. exact IH.
Qed.

Lemma dragStarted_flags (B : Base) (config : Config.t) (e : PointerEvent.t)
    (s : State) :
  ComputeFrame B ->
  _active (dragStarted B config e s) = true
  /\ _delayed (dragStarted B config e s) = false
  /\ _preventScroll (dragStarted B config e s) = true
  /\ _pointerActive (dragStarted B config e s) = _pointerActive s
  /\ _keyboardActive (dragStarted B config e s) = _keyboardActive s.
Proof.
  intros F. unfold dragStarted. autorewrite with frame.
  repeat split; reflexivity.
Qed.

Lemma dragStarted_phase (B : Base) (config : Config.t) (e : PointerEvent.t)
    (s : State) :
  ComputeFrame B ->
  _pointerActive s = true ->
  phase config (dragStarted B config e s) = Dragging.
Proof.
  intros F Hp.
  destruct (dragStarted_flags B config e s F) as (_ & Hd & Hs & Ha & _).
  unfold phase. rewrite Ha, Hp, Hd, Hs. cbn.
  rewrite andb_false_r. reflexivity.
Qed.

Lemma pointerMove_accepted (B : Base) (config : Config.t)
    (e : PointerEvent.t) (w : Engine) :
  accepts (state w) e = true ->
  pointerMove B config e w
  = let w1 :=
      computeWith B config (Some (OfPointer e))
        (on_state
          (fun s => accumulate (sample (pointerLockElement w) e s)) w) in
    if _delayed (state w1) then
      startPointerDrag B config e (timeoutStore_remove "dragDelay" w1)
    else if truthy (Config.preventScroll config)
            && negb (_preventScroll (state w1)) then
      match axis (state w1) with
      | Some a =>
          if axis_matches a (Config.preventScrollAxis config)
             || is_xy (Config.preventScrollAxis config)
          then clean config (on_state (set_active false) w1)
          else
            startPointerDrag B config e
              (timeoutStore_remove "startPointerDrag" w1)
      | None => w1
      end
    else emit w1.
Proof.
  unfold accepts, pointerMove. intros H.
  apply andb_true_iff in H. destruct H as [H Hf].
  apply andb_true_iff in H. destruct H as [Ha Hd].
  apply negb_true_iff in Hf, Hd.
  rewrite Ha, Hd, Hf. reflexivity.
Qed.

Lemma pointerMove_ignored (B : Base) (config : Config.t)
    (e : PointerEvent.t) (w : Engine) :
  accepts (state w) e = false ->
  pointerMove B config e w = w.
Proof.
  unfold accepts, pointerMove. intros H.
  destruct (_pointerActive (state w)); cbn in *; [|reflexivity].
  destruct (duplicate (state w) e); cbn in *; [reflexivity|].
  destruct (foreign (state w) e); cbn in *; [reflexivity|discriminate].
Qed.

Lemma moved_frame (B : Base) (config : Config.t) (e : PointerEvent.t)
    (w : Engine) :
  ComputeFrame B ->
  _pointerActive (moved B config e w) = _pointerActive (state w)
  /\ _delayed (moved B config e w) = _delayed (state w)
  /\ _preventScroll (moved B config e w) = _preventScroll (state w)
  /\ _keyboardActive (moved B config e w) = _keyboardActive (state w).
Proof.
  intros F. unfold moved, accumulate, sample. autorewrite with frame.
  destruct (node_eqb (pointerLockElement w) (Some (PointerEvent.target e)));
    repeat split; reflexivity.
Qed.

(** ** Delayed activation *)

(** C6: with a positive delay (and no scroll prevention), a fresh
    pointer-down enters the delay-pending phase and schedules the
    [dragDelay] timer with the pointer-down event; an accepted pointer-move
    arriving while the gesture is delayed removes that timer and starts
    dragging at once with the move event (the gesture is active, no longer
    delayed, and the emitted state is the kinematics pass of that event); if
    instead the timer fires, dragging starts with the pointer-down event
    captured when the timer was scheduled. *)
Theorem delay_preempted_by_move (B : Base) (config : Config.t) :
  ComputeFrame B ->
  truthy (Config.preventScroll config) = false ->
  (0 <? Config.delay config) = true ->
  (forall (e0 : PointerEvent.t) (w : Engine),
      _pointerActive (state w) = false ->
      let r := pointerDown B config e0 w in
      let f := fireTimeout B config "dragDelay" r in
      phase config (state r) = DelayPending
      /\ emitted r = emitted w
      /\ TimeoutStore.find "dragDelay" (timeoutStore r)
         = Some {| callback := CbStartPointerDrag;
                   ms := Config.delay config; arg := e0 |}
      /\ state f = dragStarted B config e0 (state r)
      /\ emitted f = emitted w ++ [state f]
      /\ _active (state f) = true
      /\ phase config (state f) = Dragging
      /\ TimeoutStore.find "dragDelay" (timeoutStore f) = None)
  /\ (forall (e : PointerEvent.t) (w : Engine),
        accepts (state w) e = true ->
        phase config (state w) = DelayPending ->
        let r := pointerMove B config e w in
        state r = dragStarted B config e (moved B config e w)
        /\ emitted r = emitted w ++ [state r]
        /\ _active (state r) = true
        /\ phase config (state r) = Dragging
        /\ TimeoutStore.find "dragDelay" (timeoutStore r) = None
        /\ fireTimeout B config "dragDelay" r = r).
Proof.
  intros F Hps Hdelay. split.
  - intros e0 w Hidle r f.
    assert (Hr : r = setupDelayTrigger config e0
                       (on_state
                          (fun s =>
                             let s1 := set_pointerActive true
                                         (set_pointerId (pointerId e0) s) in
                             let s2 := set_values (pointerValues e0) s1 in
                             set_initial (values s2) s2)
                          (setupPointer config e0
                             (on_state (start B config (OfPointer e0))
                                (if Config.pointerCapture config
                                 then setPointerCapture
                                        (PointerEvent.target e0,
                                         PointerEvent.pointerId e0)
                                        (setEventIds e0 w)
                                 else setEventIds e0 w))))).
    { unfold r, pointerDown.
      destruct (Config.pointerCapture config); cbn; rewrite Hidle, Hps, Hdelay;
        reflexivity. }
    assert (Hfind : TimeoutStore.find "dragDelay" (timeoutStore r)
                    = Some {| callback := CbStartPointerDrag;
                              ms := Config.delay config; arg := e0 |}).
    { rewrite Hr. unfold setupDelayTrigger, timeoutStore_add. cbn.
      reflexivity. }
    assert (Hpa : _pointerActive (state r) = true).
    { rewrite Hr. unfold setupPointer.
      destruct (Config.pointerLock config), (Config.pointerCapture config);
        reflexivity. }
    assert (Hdl : _delayed (state r) = true).
    { rewrite Hr. unfold setupPointer.
      destruct (Config.pointerLock config), (Config.pointerCapture config);
        reflexivity. }
    assert (Hem : emitted r = emitted w).
    { rewrite Hr. unfold setupPointer.
      destruct (Config.pointerLock config), (Config.pointerCapture config);
        reflexivity. }
    assert (Hf : f = startPointerDrag B config e0
                       (timeoutStore_remove "dragDelay" r)).
    { unfold f, fireTimeout. rewrite Hfind. reflexivity. }
    assert (Hsf : state f = dragStarted B config e0 (state r)).
    { rewrite Hf. reflexivity. }
    split; [unfold phase; rewrite Hpa, Hdl; reflexivity|].
    split; [exact Hem|]. split; [exact Hfind|]. split; [exact Hsf|].
    split; [rewrite Hsf, Hf; cbn; rewrite Hem; reflexivity|].
    rewrite Hsf.
    split; [apply (dragStarted_flags B config e0 (state r) F)|].
    split; [apply dragStarted_phase; assumption|].
    rewrite Hf. cbn. apply find_remove_same.
  - intros e w Hacc Hph r.
    assert (Hd : _delayed (state w) = true /\ _pointerActive (state w) = true).
    { unfold phase in Hph.
      destruct (_pointerActive (state w)); cbn in Hph; [|discriminate].
      destruct (_delayed (state w)); [split; reflexivity|].
      destruct (truthy (Config.preventScroll config)
                && negb (_preventScroll (state w))); discriminate. }
    destruct Hd as [Hd Hpa].
    destruct (moved_frame B config e w F) as (Mpa & Mdl & _).
    assert (Hr : r = startPointerDrag B config e
                       (timeoutStore_remove "dragDelay"
                          (with_state (moved B config e w) w))).
    { unfold r. rewrite (pointerMove_accepted B config e w Hacc).
      cbv zeta. change (state (computeWith B config (Some (OfPointer e))
                                 (on_state
                                    (fun s => accumulate
                                                (sample (pointerLockElement w) e s))
                                    w)))
                 with (moved B config e w).
      rewrite Mdl, Hd. reflexivity. }
    assert (Hs : state r = dragStarted B config e (moved B config e w)).
    { rewrite Hr. reflexivity. }
    assert (Hfind : TimeoutStore.find "dragDelay" (timeoutStore r) = None).
    { rewrite Hr. cbn. apply find_remove_same. }
    split; [exact Hs|].
    split; [rewrite Hs, Hr; reflexivity|].
    rewrite Hs.
    split; [apply (dragStarted_flags B config e _ F)|].
    split; [apply dragStarted_phase; [assumption|congruence]|].
    split; [exact Hfind|].
    unfold fireTimeout. rewrite Hfind. reflexivity.
Qed.

Lemma delay_preempted_by_move_witness :
  let down := pev "pointerdown" 0 1 10 10 in
  let mv := pev "pointermove" 50 1 15 10 in
  let r := pointerDown refBase delayConfig down (newEngine refBase) in
  _active (state r) = false
  /\ _active (state (fireTimeout refBase delayConfig "dragDelay" r)) = true
  /\ _active (state (pointerMove refBase delayConfig mv r)) = true
  /\ timeStamp (state (pointerMove refBase delayConfig mv r)) = 50
  /\ fireTimeout refBase delayConfig "dragDelay"
       (pointerMove refBase delayConfig mv r)
     = pointerMove refBase delayConfig mv r.
Proof.
  intros down mv r.
  destruct (delay_preempted_by_move refBase delayConfig ref_frame eq_refl
              eq_refl) as [Hdown Hmove].
  specialize (Hdown down (newEngine refBase) eq_refl).
  specialize (Hmove mv r eq_refl eq_refl).
  cbv zeta in Hdown, Hmove. fold r in Hdown.
  destruct Hdown as (_ & _ & _ & _ & _ & Hfa & _).
  destruct Hmove as (_ & _ & Hma & _ & _ & Hmf).
  split; [reflexivity|]. split; [exact Hfa|]. split; [exact Hma|].
  split; [reflexivity|exact Hmf].
Defined.

(** ** Scroll prevention *)

Lemma clean_spec (config : Config.t) (w : Engine) :
  _pointerActive (state (clean config w)) = false
  /\ _keyboardActive (state (clean config w)) = false
  /\ _active (state (clean config w)) = _active (state w)
  /\ timeoutStore (clean config w) = []
  /\ eventStore (clean config w) = []
  /\ emitted (clean config w) = emitted w
  /\ pendingCancels (clean config w) = pendingCancels w.
Proof.
  unfold clean, pointerClean.
  destruct (Config.pointerLock config
            && node_eqb (pointerLockElement w) (currentTarget (state w)));
    repeat split; reflexivity.
Qed.

Lemma scroll_pending_inv (config : Config.t) (s : State) :
  phase config s = ScrollPending ->
  _pointerActive s = true /\ _delayed s = false
  /\ _preventScroll s = false
  /\ truthy (Config.preventScroll config) = true.
Proof.
  unfold phase.
  destruct (_pointerActive s); cbn; [|discriminate].
  destruct (_delayed s); [discriminate|].
  destruct (truthy (Config.preventScroll config)); cbn; [|discriminate].
  destruct (_preventScroll s); cbn; [discriminate|].
  repeat split; reflexivity.
Qed.

Lemma clean_releases_own_lock (config : Config.t) (w : Engine) :
  pointerLockElement (clean config w)
  = (if Config.pointerLock config
        && node_eqb (pointerLockElement w) (currentTarget (state w))
     then None else pointerLockElement w)
  /\ pointerCaptures (clean config w) = pointerCaptures w.
Proof.
  unfold clean, pointerClean.
  destruct (Config.pointerLock config
            && node_eqb (pointerLockElement w) (currentTarget (state w)));
    split; reflexivity.
Qed.

(** C5: an accepted pointer-move in the scroll-pending phase accumulates the
    delta and runs the kinematics pass; then
    - while the axis is undetermined, nothing is emitted and the gesture
      stays scroll-pending with the accumulated movement;
    - if the axis is the configured prevented axis, or the configuration is
      'xy', the gesture is aborted: [_active] and both source flags are
      false, the clean-up runs (the pointer lock is exited when pointer lock
      is configured and the gesture's own target holds it, the listeners and
      timers are released), nothing is emitted, and afterwards no timer and
      no pointer-move changes the engine, so Dragging is never reached (a
      pointer-up changes neither state nor emissions);
    - otherwise the forced-activation timer is removed and dragging starts
      with this event, which is emitted. *)
Theorem scroll_pending_move (B : Base) (config : Config.t)
    (e : PointerEvent.t) (w : Engine) :
  ComputeFrame B ->
  accepts (state w) e = true ->
  phase config (state w) = ScrollPending ->
  let s1 := moved B config e w in
  let r := pointerMove B config e w in
  _movement s1 = V.addTo (_movement (state w)) (_delta s1)
  /\ match axis s1 with
     | None =>
         r = with_state s1 w
         /\ emitted r = emitted w
         /\ phase config (state r) = ScrollPending
     | Some a =>
         if axis_matches a (Config.preventScrollAxis config)
            || is_xy (Config.preventScrollAxis config)
         then
           _active (state r) = false
           /\ _pointerActive (state r) = false
           /\ _keyboardActive (state r) = false
           /\ phase config (state r) = Idle
           /\ timeoutStore r = []
           /\ eventStore r = []
           /\ emitted r = emitted w
           /\ (forall k, fireTimeout B config k r = r)
           /\ (forall e', pointerMove B config e' r = r)
           /\ (forall e', state (pointerUp B config e' r) = state r
                         /\ emitted (pointerUp B config e' r) = emitted r)
           /\ pointerLockElement r
              = (if Config.pointerLock config
                    && node_eqb (pointerLockElement w) (currentTarget s1)
                 then None else pointerLockElement w)
           /\ (Config.pointerLock config = true ->
               node_eqb (pointerLockElement w) (currentTarget s1) = true ->
               pointerLockElement r = None)
         else
           state r = dragStarted B config e s1
           /\ emitted r = emitted w ++ [state r]
           /\ _active (state r) = true
           /\ phase config (state r) = Dragging
           /\ TimeoutStore.find "startPointerDrag" (timeoutStore r) = None
     end.
Proof.
  intros F Hacc Hph s1 r.
  destruct (scroll_pending_inv config (state w) Hph) as (Hpa & Hdl & Hps & Ht).
  destruct (moved_frame B config e w F) as (Mpa & Mdl & Mps & _).
  fold s1 in Mpa, Mdl, Mps.
  assert (Hr : r = if _delayed s1 then
                     startPointerDrag B config e
                       (timeoutStore_remove "dragDelay" (with_state s1 w))
                   else if truthy (Config.preventScroll config)
                           && negb (_preventScroll s1) then
                     match axis s1 with
                     | Some a =>
                         if axis_matches a (Config.preventScrollAxis config)
                            || is_xy (Config.preventScrollAxis config)
                         then clean config
                                (on_state (set_active false) (with_state s1 w))
                         else
                           startPointerDrag B config e
                             (timeoutStore_remove "startPointerDrag"
                                (with_state s1 w))
                     | None => with_state s1 w
                     end
                   else emit (with_state s1 w)).
  { unfold r. rewrite (pointerMove_accepted B config e w Hacc). reflexivity. }
  rewrite Mdl, Hdl, Mps, Hps, Ht in Hr. cbn in Hr.
  split.
  { unfold s1, moved. autorewrite with frame.
    unfold accumulate, sample.
    destruct (node_eqb (pointerLockElement w) (Some (PointerEvent.target e)));
      reflexivity. }
  destruct (axis s1) as [a|].
  - destruct (axis_matches a (Config.preventScrollAxis config)
              || is_xy (Config.preventScrollAxis config)).
    + destruct (clean_spec config
                  (on_state (set_active false) (with_state s1 w)))
        as (Cp & Ck & Ca & Ct & Ce & Cm & _).
      rewrite <- Hr in Cp, Ck, Ca, Ct, Ce, Cm.
      split; [rewrite Ca; reflexivity|].
      split; [exact Cp|]. split; [exact Ck|].
      split; [unfold phase; rewrite Cp; reflexivity|].
      split; [exact Ct|]. split; [exact Ce|]. split; [exact Cm|].
      destruct (clean_releases_own_lock config
                  (on_state (set_active false) (with_state s1 w)))
        as (Cl & _).
      rewrite <- Hr in Cl.
      change (pointerLockElement
                (on_state (set_active false) (with_state s1 w)))
        with (pointerLockElement w) in Cl.
      change (currentTarget
                (state (on_state (set_active false) (with_state s1 w))))
        with (currentTarget s1) in Cl.
      split; [|split; [|split; [|split]]].
      * intros k. unfold fireTimeout. rewrite Ct. reflexivity.
      * intros e'. apply pointerMove_ignored. unfold accepts.
        rewrite Cp. reflexivity.
      * intros e'.
        destruct (pointerUp_ignored B config e' r) as (Us & Ue & _).
        -- unfold ends. rewrite Cp. reflexivity.
        -- split; assumption.
      * exact Cl.
      * intros Hlock Hown. rewrite Hlock, Hown in Cl. exact Cl.
    + assert (Hs : state r = dragStarted B config e s1)
        by (rewrite Hr; reflexivity).
      split; [exact Hs|].
      split; [rewrite Hs, Hr; reflexivity|].
      rewrite Hs.
      split; [apply (dragStarted_flags B config e s1 F)|].
      split; [apply dragStarted_phase; [assumption|congruence]|].
      rewrite Hr. cbn. apply find_remove_same.
  - split; [exact Hr|]. rewrite Hr. split; [reflexivity|].
    cbn. unfold phase. rewrite Mpa, Hpa, Mdl, Hdl, Mps, Hps, Ht. reflexivity.
Qed.

Lemma scroll_pending_move_witness :
  let w := pointerDown refBase scrollConfig (pev "touchstart" 0 1 10 10)
             (newEngine refBase) in
  let still := pev "touchmove" 8 1 10 10 in
  let down := pev "touchmove" 8 1 10 25 in
  let right := pev "touchmove" 8 1 25 10 in
  let lockConfig :=
    {| Config.device := "touch"; Config.pointerCapture := false;
       Config.pointerLock := true; Config.preventScroll := 250;
       Config.preventScrollAxis := ScrollY; Config.delay := 0;
       Config.filterTaps := false; Config.swipeVelocity := (0.5, 0.5);
       Config.swipeDistance := (50, 50); Config.swipeDuration := 250 |} in
  let locked :=
    with_pointerLockElement (Some 1%nat)
      (pointerDown refBase lockConfig (pev "touchstart" 0 1 10 10)
         (newEngine refBase)) in
  let slide :=
    {| PointerEvent.type := "touchmove"; PointerEvent.timeStamp := 8;
       PointerEvent.pointerId := Some 1%Z; PointerEvent.clientX := 10;
       PointerEvent.clientY := 10; PointerEvent.movementX := 0;
       PointerEvent.movementY := 15; PointerEvent.target := 1%nat;
       PointerEvent.currentTarget := 1%nat;
       PointerEvent.cancelable := true |} in
  phase scrollConfig (state w) = ScrollPending
  /\ pointerMove refBase scrollConfig still w
     = with_state (moved refBase scrollConfig still w) w
  /\ phase scrollConfig (state (pointerMove refBase scrollConfig down w))
     = Idle
  /\ emitted (pointerMove refBase scrollConfig down w) = []
  /\ phase scrollConfig (state (pointerMove refBase scrollConfig right w))
     = Dragging
  /\ pointerLockElement locked = Some 1%nat
  /\ pointerLockElement (pointerMove refBase lockConfig slide locked) = None.
Proof.
  intros w still down right lockConfig locked slide.
  pose proof (scroll_pending_move refBase scrollConfig still w ref_frame
                eq_refl eq_refl) as Hs.
  pose proof (scroll_pending_move refBase scrollConfig down w ref_frame
                eq_refl eq_refl) as Hd.
  pose proof (scroll_pending_move refBase scrollConfig right w ref_frame
                eq_refl eq_refl) as Hr.
  pose proof (scroll_pending_move refBase lockConfig slide locked ref_frame
                eq_refl eq_refl) as Hl.
  cbv zeta in Hs, Hd, Hr, Hl.
  destruct Hs as [_ Hs]. destruct Hd as [_ Hd]. destruct Hr as [_ Hr].
  destruct Hl as [_ Hl].
  change (axis (moved refBase scrollConfig still w)) with (@None Axis) in Hs.
  change (axis (moved refBase scrollConfig down w)) with (Some AxisY) in Hd.
  change (axis (moved refBase scrollConfig right w)) with (Some AxisX) in Hr.
  change (axis (moved refBase lockConfig slide locked))
    with (Some AxisY) in Hl.
  cbn [axis_matches is_xy scrollConfig Config.preventScrollAxis orb]
    in Hd, Hr, Hl.
  destruct Hs as (Hs & _).
  destruct Hd as (_ & _ & _ & Hdp & _ & _ & Hde & _).
  destruct Hr as (_ & _ & _ & Hrp & _).
  destruct Hl as (_ & _ & _ & _ & _ & _ & _ & _ & _ & _ & _ & Hlk).
  split; [reflexivity|]. split; [exact Hs|]. split; [exact Hdp|].
  split; [exact Hde|]. split; [exact Hrp|]. split; [reflexivity|].
  apply Hlk; vm_compute; reflexivity.
Defined.

(** ** Accumulated movement *)

Lemma moved_sample (B : Base) (config : Config.t) (e : PointerEvent.t)
    (w : Engine) :
  ComputeFrame B ->
  let locked :=
    node_eqb (pointerLockElement w) (Some (PointerEvent.target e)) in
  let d :=
    if locked then (PointerEvent.movementX e, PointerEvent.movementY e)
    else V.sub (pointerValues e) (values (state w)) in
  _movement (moved B config e w) = V.addTo (_movement (state w)) d
  /\ values (moved B config e w)
     = (if locked then values (state w) else pointerValues e).
Proof.
  intros F locked d. unfold moved. autorewrite with frame.
  unfold accumulate, sample, d, locked.
  destruct (node_eqb (pointerLockElement w) (Some (PointerEvent.target e)));
    split; reflexivity.
Qed.

Lemma pointerMove_keeps (B : Base) (config : Config.t) (e : PointerEvent.t)
    (w : Engine) :
  ComputeFrame B ->
  accepts (state w) e = true ->
  let r := pointerMove B config e w in
  _movement (state r) = _movement (moved B config e w)
  /\ values (state r) = values (moved B config e w)
  /\ (pointerLockElement r = pointerLockElement w
      \/ _pointerActive (state r) = false).
Proof.
  intros F Hacc r. unfold r.
  rewrite (pointerMove_accepted B config e w Hacc). cbv zeta.
  change (state (computeWith B config (Some (OfPointer e))
                   (on_state
                      (fun s => accumulate (sample (pointerLockElement w) e s))
                      w)))
    with (moved B config e w).
  destruct (_delayed (moved B config e w)).
  - cbn. fold (dragStarted B config e (moved B config e w)).
    unfold dragStarted. autorewrite with frame.
    split; [reflexivity|]. split; [reflexivity|]. left; reflexivity.
  - destruct (truthy (Config.preventScroll config)
              && negb (_preventScroll (moved B config e w))).
    + destruct (axis (moved B config e w)) as [a|].
      * destruct (axis_matches a (Config.preventScrollAxis config)
                  || is_xy (Config.preventScrollAxis config)).
        -- unfold clean, pointerClean.
           match goal with
           | |- context [if ?b then _ else _] => destruct b
           end; (split; [reflexivity|]); (split; [reflexivity|]);
             right; reflexivity.
        -- cbn. fold (dragStarted B config e (moved B config e w)).
           unfold dragStarted. autorewrite with frame.
           split; [reflexivity|]. split; [reflexivity|]. left; reflexivity.
      * split; [reflexivity|]. split; [reflexivity|]. left; reflexivity.
    + split; [reflexivity|]. split; [reflexivity|]. left; reflexivity.
Qed.

(** C8: over any sequence of accepted pointer-move events, the accumulated
    movement is the left-to-right running sum of the per-event deltas, each
    delta being the reported relative movement under pointer lock or the
    difference between consecutive absolute positions. *)
Theorem movement_is_running_sum (B : Base) (config : Config.t)
    (es : list PointerEvent.t) (w : Engine) :
  ComputeFrame B ->
  allAccepted B config es w = true ->
  _movement (state (pointerMoves B config es w))
  = fold_left V.addTo
      (deltas (pointerLockElement w) (values (state w)) es)
      (_movement (state w)).
Proof.
  intros F. revert w.
  induction es as [|e es IH]; intros w Hall; [reflexivity|].
  cbn in Hall. apply andb_true_iff in Hall. destruct Hall as [Hacc Hall].
  destruct (pointerMove_keeps B config e w F Hacc) as (Hm & Hv & Hl).
  destruct (moved_sample B config e w F) as (Sm & Sv).
  cbv zeta in Hm, Hv, Hl, Sm, Sv.
  change (pointerMoves B config (e :: es) w)
    with (pointerMoves B config es (pointerMove B config e w)).
  destruct Hl as [Hl | Hl].
  - rewrite (IH _ Hall), Hl, Hm, Hv, Sm, Sv. cbn [deltas fold_left].
    destruct (node_eqb (pointerLockElement w) (Some (PointerEvent.target e)));
      reflexivity.
  - destruct es as [|e' es].
    + cbn [pointerMoves deltas fold_left]. rewrite Hm, Sm.
      destruct (node_eqb (pointerLockElement w)
                  (Some (PointerEvent.target e))); reflexivity.
    + cbn in Hall. unfold accepts in Hall. rewrite Hl in Hall.
      discriminate Hall.
Qed.

Lemma movement_is_running_sum_witness :
  let w := pointerDown refBase defaultConfig (pev "pointerdown" 0 1 10 10)
             (newEngine refBase) in
  let es := [pev "pointermove" 8 1 13 10; pev "pointermove" 16 1 13 14;
             pev "pointermove" 24 1 9 14] in
  allAccepted refBase defaultConfig es w = true
  /\ deltas (pointerLockElement w) (values (state w)) es
     = [(3, 0); (0, 4); (-4, 0)]
  /\ _movement (state (pointerMoves refBase defaultConfig es w)) = (-1, 4).
Proof.
  intros w es.
  split; [reflexivity|]. split; [reflexivity|].
  rewrite (movement_is_running_sum refBase defaultConfig es w ref_frame
             eq_refl).
  reflexivity.
Defined.

(** Floating-point addition is not associative, so the running sum depends
    on the order in which the deltas arrive. *)
Example running_sum_order_matters :
  fold_left V.addTo [(0.1, 0); (0.2, 0); (0.3, 0)] (0, 0)
  <> fold_left V.addTo [(0.3, 0); (0.2, 0); (0.1, 0)] (0, 0).
Proof. vm_compute. intros H. discriminate H. Qed.

(** ** Cancellation *)

Lemma cancelCallback_spec (B : Base) (config : Config.t) (w : Engine) :
  ComputeFrame B ->
  let r := cancelCallback B config w in
  state r
  = compute B config None (set_active false (set_canceled true (state w)))
  /\ emitted r = emitted w ++ [state r]
  /\ canceled (state r) = true
  /\ _active (state r) = false
  /\ _pointerActive (state r) = _pointerActive (state w)
  /\ _keyboardActive (state r) = _keyboardActive (state w)
  /\ pendingCancels r = pendingCancels w.
Proof.
  intros F r. unfold r, cancelCallback. cbn. autorewrite with frame.
  repeat split; reflexivity.
Qed.

(** C3 at the failing input: two [cancel] calls made before the first
    deferred callback has run both pass the [canceled] guard, which only
    the callback sets; both callbacks run, and the consumer receives two
    emissions with [canceled = true] instead of a single terminal one. *)
Theorem cancel_twice_emits_twice :
  let r :=
    run refBase defaultConfig (newEngine refBase)
      [PointerDown (pev "pointerdown" 0 1 10 10);
       Cancel; Cancel; RunPendingCancel; RunPendingCancel] in
  List.length (filter canceled (emitted r)) = 2%nat
  /\ List.length (filter canceled (emitted r)) <> 1%nat.
Proof. split; [reflexivity | discriminate]. Qed.

(** Once the first callback has run the guard works: a [cancel] call on a
    canceled gesture changes nothing and queues nothing, so cancel, its
    callback and a second cancel leave a single terminal emission. *)
Lemma cancel_when_canceled_is_noop (B : Base) (config : Config.t)
    (w : Engine) :
  ComputeFrame B ->
  (canceled (state w) = true -> cancel w = w)
  /\ (canceled (state w) = false -> pendingCancels w = 0%nat ->
      let r :=
        run B config w [Cancel; RunPendingCancel; Cancel; RunPendingCancel] in
      emitted r = emitted w ++ [state r]
      /\ canceled (state r) = true
      /\ _active (state r) = false
      /\ pendingCancels r = 0%nat).
Proof.
  intros F.
  split; [unfold cancel; intros ->; reflexivity|].
  intros Hc Hn r.
  assert (Hr : r = cancelCallback B config w).
  { unfold r, run. cbn [fold_left step].
    unfold cancel at 2. rewrite Hc.
    unfold runPendingCancel at 2. cbn [pendingCancels with_pendingCancels].
    set (w1 := cancelCallback B config
                 (with_pendingCancels (pendingCancels w)
                    (with_pendingCancels (S (pendingCancels w)) w))).
    assert (Hw1 : w1 = cancelCallback B config w).
    { unfold w1. destruct w; cbn in *. reflexivity. }
    rewrite Hw1.
    destruct (cancelCallback_spec B config w F)
      as (_ & _ & Hc' & _ & _ & _ & Hn').
    unfold cancel. rewrite Hc'.
    unfold runPendingCancel. rewrite Hn', Hn. reflexivity. }
  rewrite Hr.
  destruct (cancelCallback_spec B config w F)
    as (_ & He & Hc' & Ha & _ & _ & Hn').
  repeat split; try assumption; congruence.
Qed.

(** ** The active flag *)

Lemma classify_flags (config : Config.t) (s : State) :
  _active (classify config s) = _active s
  /\ _pointerActive (classify config s) = _pointerActive s
  /\ _keyboardActive (classify config s) = _keyboardActive s.
Proof.
  unfold classify, swipeTest.
  destruct (Config.swipeVelocity config), (Config.swipeDistance config).
  split_state s. case_ifs; repeat split; reflexivity.
Qed.

(** C4, as the code has it: [setActive] derives [_active] as the OR of the
    two source flags, so the OR holds after every pointer-up that ends the
    pointer gesture and after every arrow key-up.  [_active] is also
    assigned directly: [startPointerDrag] sets it to true and leaves the
    source flags alone (at a fresh pointer-down with neither scroll
    prevention nor a delay the pointer flag is true, so the OR holds); the
    scroll-pending abort sets it to false and clears both source flags (the
    OR holds); the deferred cancel callback sets it to false and leaves the
    source flags alone; [clean] clears the source flags and leaves [_active]
    alone. *)
Theorem active_is_or_where_derived (B : Base) (config : Config.t)
    (w : Engine) :
  ComputeFrame B ->
  let holds (r : Engine) :=
    _active (state r)
    = (_pointerActive (state r) || _keyboardActive (state r)) in
  _active (state (setActive w))
  = (_pointerActive (state w) || _keyboardActive (state w))
  /\ (forall e, ends (state w) e = true -> holds (pointerUp B config e w))
  /\ (forall e, is_arrow (KeyboardEvent.key e) = true ->
      holds (keyUp B config e w))
  /\ (forall e,
      let r := startPointerDrag B config e w in
      _active (state r) = true
      /\ _pointerActive (state r) = _pointerActive (state w)
      /\ _keyboardActive (state r) = _keyboardActive (state w))
  /\ (forall e,
      _pointerActive (state w) = false ->
      truthy (Config.preventScroll config) = false ->
      (0 <? Config.delay config) = false ->
      let r := pointerDown B config e w in
      _active (state r) = true /\ _pointerActive (state r) = true
      /\ holds r)
  /\ holds (clean config (on_state (set_active false) w))
  /\ (let r := cancelCallback B config w in
      _active (state r) = false
      /\ _pointerActive (state r) = _pointerActive (state w)
      /\ _keyboardActive (state r) = _keyboardActive (state w))
  /\ (let r := clean config w in
      _active (state r) = _active (state w)
      /\ _pointerActive (state r) = false
      /\ _keyboardActive (state r) = false).
Proof.
  intros F holds.
  split; [reflexivity|].
  split.
  { intros e He. unfold holds.
    destruct (pointerUp_ends B config e w He) as [Hs _].
    cbv zeta in Hs. rewrite Hs.
    destruct (classify_flags config
                (compute B config (Some (OfPointer e))
                   (state (setActive (on_state (set_pointerActive false) w)))))
      as (Ha & Hp & Hk).
    rewrite Ha, Hp, Hk. autorewrite with frame. reflexivity. }
  split.
  { intros e Hk. unfold holds, keyUp. rewrite (arrow_inTable _ Hk). cbn.
    autorewrite with frame. reflexivity. }
  split.
  { intros e r.
    destruct (dragStarted_flags B config e (state w) F)
      as (Ha & _ & _ & Hp & Hk).
    unfold r. repeat split; assumption. }
  split.
  { intros e Hidle Hps Hdelay r.
    assert (Hr : _active (state r) = true /\ _pointerActive (state r) = true).
    { unfold r, pointerDown, setupPointer.
      destruct (Config.pointerCapture config), (Config.pointerLock config);
        cbn; rewrite Hidle, Hps, Hdelay; cbn; autorewrite with frame;
        split; reflexivity. }
    destruct Hr as [Ha Hp]. unfold holds. rewrite Ha, Hp.
    repeat split. }
  split.
  { unfold holds.
    destruct (clean_spec config (on_state (set_active false) w))
      as (Hp & Hk & Ha & _).
    rewrite Hp, Hk, Ha. reflexivity. }
  split.
  { intros r.
    destruct (cancelCallback_spec B config w F)
      as (_ & _ & _ & Ha & Hp & Hk & _).
    repeat split; assumption. }
  intros r.
  destruct (clean_spec config w) as (Hp & Hk & Ha & _).
  repeat split; assumption.
Qed.

Lemma active_is_or_where_derived_witness :
  let w :=
    run refBase defaultConfig (newEngine refBase)
      [PointerDown (pev "pointerdown" 0 1 10 10);
       KeyDown (kev "keydown" 4 "ArrowUp" false false)] in
  let up := pev "pointerup" 8 1 10 10 in
  let r := pointerUp refBase defaultConfig up w in
  ends (state w) up = true
  /\ _keyboardActive (state r) = true
  /\ _active (state r)
     = (_pointerActive (state r) || _keyboardActive (state r)).
Proof.
  intros w up r.
  destruct (active_is_or_where_derived refBase defaultConfig w ref_frame)
    as (_ & H & _).
  specialize (H up eq_refl).
  split; [reflexivity|]. split; [reflexivity|exact H].
Defined.

(** C4, as stated, fails: a pointer-down starts a drag ([startPointerDrag]
    assigns [_active = true]); [clean] then clears both source flags and
    does not touch [_active], which stays true. *)
Lemma active_not_or_after_clean :
  let r :=
    run refBase defaultConfig (newEngine refBase)
      [PointerDown (pev "pointerdown" 0 1 10 10); Clean] in
  _active (state r) = true
  /\ _pointerActive (state r) = false
  /\ _keyboardActive (state r) = false
  /\ _active (state r)
     <> (_pointerActive (state r) || _keyboardActive (state r)).
Proof. repeat split. discriminate. Qed.

(** With the reference implementation of the inherited methods the same
    happens after a cancellation: the callback assigns [_active = false]
    while the pointer is still down. *)
Example active_false_after_cancel :
  let r :=
    run refBase defaultConfig (newEngine refBase)
      [PointerDown (pev "pointerdown" 0 1 10 10);
       Cancel; RunPendingCancel] in
  _active (state r) = false /\ _pointerActive (state r) = true.
Proof. split; reflexivity. Qed.

(** ** Ignored inputs *)






(** C9 at the failing input: the gesture was captured by pointer id 0; a
    pointer-move bearing pointer id 1 is not recognised as foreign, moves
    the gesture by its own displacement and is emitted, and a pointer-up
    bearing pointer id 1 ends the gesture. *)
Theorem foreign_pointer_accepted_when_id_zero :
  let w :=
    pointerDown refBase defaultConfig (pev "pointerdown" 0 0 10 10)
      (newEngine refBase) in
  let mv := pev "pointermove" 8 1 50 50 in
  let up := pev "pointerup" 8 1 50 50 in
  _pointerId (state w) = Some 0%Z
  /\ pointerId mv = Some 1%Z
  /\ foreign (state w) mv = false
  /\ _movement (state w) = (0, 0)
  /\ _movement (state (pointerMove refBase defaultConfig mv w)) = (40, 40)
  /\ List.length (emitted (pointerMove refBase defaultConfig mv w))
     = S (List.length (emitted w))
  /\ _pointerActive (state w) = true
  /\ _pointerActive (state (pointerUp refBase defaultConfig up w)) = false.
Proof. repeat split. Qed.

(** * Further properties of the handlers *)

Section FrameMore.

Variable B : Base.
Hypothesis F : ComputeFrame B.

Lemma frame_initial c oe s : initial (compute B c oe s) = initial s.
Proof. pose proof (F c oe s) as H; unfold owned in H; congruence. Qed.

Lemma frame_tap c oe s : tap (compute B c oe s) = tap s.
Proof. pose proof (F c oe s) as H; unfold owned in H; congruence. Qed.

Lemma frame_force c oe s : _force (compute B c oe s) = _force s.
Proof. pose proof (F c oe s) as H; unfold owned in H; congruence. Qed.

End FrameMore.

#[local] Hint Rewrite frame_initial frame_tap frame_force
  using assumption : frame.

Lemma find_remove_other (k k' : string) (st : TimeoutStore.t) :
  String.eqb k' k = false ->
  TimeoutStore.find k (TimeoutStore.remove k' st) = TimeoutStore.find k st.
Proof.
  intros Hk.
  induction st as [|[k0 x] st IH]; cbn; [reflexivity|].
  destruct (String.eqb k0 k') eqn:E0; cbn.
  - apply String.eqb_eq in E0. subst k0. rewrite Hk. exact IH.
  - destruct (String.eqb k0 k); [reflexivity|exact IH].
Qed.

(** ** Pointer down *)

(** A pointer-down arriving while a pointer already drives the gesture is
    ignored: state, emissions, timers and listeners are untouched.  Only the
    controller's id bookkeeping runs, and, when pointer capture is
    configured, the target still captures the new pointer. *)
Theorem pointerDown_while_active_ignored (B : Base) (config : Config.t)
    (e : PointerEvent.t) (w : Engine) :
  _pointerActive (state w) = true ->
  let r := pointerDown B config e w in
  state r = state w
  /\ emitted r = emitted w
  /\ timeoutStore r = timeoutStore w
  /\ eventStore r = eventStore w
  /\ pendingCancels r = pendingCancels w
  /\ ctrlEventIds r = ctrlEventIds w ++ [e]
  /\ pointerCaptures r
     = (if Config.pointerCapture config
        then (PointerEvent.target e, PointerEvent.pointerId e)
             :: pointerCaptures w
        else pointerCaptures w).
Proof.
  intros H r. unfold r, pointerDown.
  destruct (Config.pointerCapture config); cbn; rewrite H;
    repeat split; reflexivity.
Qed.

Lemma pointerDown_while_active_ignored_witness :
  let w :=
    pointerDown refBase captureConfig (pev "pointerdown" 0 1 10 10)
      (newEngine refBase) in
  let second := pev "pointerdown" 4 2 70 70 in
  let r := pointerDown refBase captureConfig second w in
  _pointerActive (state w) = true
  /\ _pointerId (state r) = Some 1%Z
  /\ emitted r = emitted w
  /\ hasPointerCapture (1%nat, Some 2%Z) r = true.
Proof.
  intros w second r.
  destruct (pointerDown_while_active_ignored refBase captureConfig second w
              eq_refl) as (Hs & He & _).
  fold r in Hs, He.
  split; [reflexivity|]. split; [rewrite Hs; reflexivity|].
  split; [exact He|reflexivity].
Defined.

(** The part of [pointerDown] shared by its three branches, for a
    pointer-down that is not ignored. *)
Lemma pointerDown_fresh (B : Base) (config : Config.t) (e : PointerEvent.t)
    (w : Engine) :
  _pointerActive (state w) = false ->
  exists w5 : Engine,
    pointerDown B config e w
    = (if truthy (Config.preventScroll config)
       then setupScrollPrevention config e w5
       else if 0 <? Config.delay config then setupDelayTrigger config e w5
       else startPointerDrag B config e w5)
    /\ _pointerId (state w5) = pointerId e
    /\ _pointerActive (state w5) = true
    /\ values (state w5) = pointerValues e
    /\ initial (state w5) = pointerValues e
    /\ _delayed (state w5)
       = _delayed (start B config (OfPointer e) (state w))
    /\ emitted w5 = emitted w
    /\ timeoutStore w5 = timeoutStore w
    /\ eventStore w5 = eventStore w ++ pointerListeners config
    /\ pendingCancels w5 = pendingCancels w.
Proof.
  intros H.
  exists (on_state
            (fun s =>
               let s1 :=
                 set_pointerActive true (set_pointerId (pointerId e) s) in
               let s2 := set_values (pointerValues e) s1 in
               set_initial (values s2) s2)
            (setupPointer config e
               (on_state (start B config (OfPointer e))
                  (if Config.pointerCapture config
                   then setPointerCapture
                          (PointerEvent.target e, PointerEvent.pointerId e)
                          (setEventIds e w)
                   else setEventIds e w)))).
  split.
  { unfold pointerDown.
    destruct (Config.pointerCapture config); cbn; rewrite H; reflexivity. }
  unfold setupPointer, pointerListeners.
  destruct (Config.pointerCapture config), (Config.pointerLock config); cbn;
    rewrite ?app_nil_r, <- ?app_assoc; repeat split; reflexivity.
Qed.

(** A fresh pointer-down with neither scroll prevention nor a positive delay
    (a delay that is zero, negative or NaN) starts dragging at once: the
    event's pointer id is captured, [values] and [initial] both hold the
    event's position, the gesture is active and in the Dragging phase, one
    snapshot is emitted, no timer is scheduled, and the window listeners for
    move and up are registered exactly when pointer capture is off. *)
Theorem pointerDown_fresh_starts_drag (B : Base) (config : Config.t)
    (e : PointerEvent.t) (w : Engine) :
  ComputeFrame B ->
  _pointerActive (state w) = false ->
  truthy (Config.preventScroll config) = false ->
  (0 <? Config.delay config) = false ->
  let r := pointerDown B config e w in
  _pointerId (state r) = pointerId e
  /\ values (state r) = pointerValues e
  /\ initial (state r) = pointerValues e
  /\ _active (state r) = true
  /\ phase config (state r) = Dragging
  /\ emitted r = emitted w ++ [state r]
  /\ timeoutStore r = timeoutStore w
  /\ eventStore r = eventStore w ++ pointerListeners config.
Proof.
  intros F Hidle Hps Hd r.
  destruct (pointerDown_fresh B config e w Hidle)
    as (w5 & Hr & Hid & Hpa & Hv & Hi & _ & He & Ht & Hl & _).
  rewrite Hps, Hd in Hr. fold r in Hr.
  assert (Hs : state r = dragStarted B config e (state w5))
    by (rewrite Hr; reflexivity).
  rewrite Hs.
  destruct (dragStarted_flags B config e (state w5) F) as (Ha & _).
  unfold dragStarted at 1 2 3. autorewrite with frame. cbn.
  split; [exact Hid|]. split; [exact Hv|]. split; [exact Hi|].
  split; [exact Ha|].
  split; [apply dragStarted_phase; assumption|].
  rewrite Hr. cbn. rewrite He, Ht, Hl. repeat split; reflexivity.
Qed.

Lemma pointerDown_fresh_starts_drag_witness :
  let e := pev "pointerdown" 0 7 10 20 in
  let r := pointerDown refBase defaultConfig e (newEngine refBase) in
  _pointerActive (state (newEngine refBase)) = false
  /\ _pointerId (state r) = Some 7%Z
  /\ initial (state r) = (10, 20)
  /\ List.length (emitted r) = 1%nat
  /\ List.length (eventStore r) = 2%nat.
Proof.
  intros e r.
  destruct (pointerDown_fresh_starts_drag refBase defaultConfig e
              (newEngine refBase) ref_frame eq_refl eq_refl eq_refl)
    as (Hid & _ & Hi & _ & _ & He & _ & Hl).
  fold r in Hid, Hi, He, Hl.
  split; [reflexivity|]. split; [exact Hid|]. split; [exact Hi|].
  split; [rewrite He; reflexivity|rewrite Hl; reflexivity].
Defined.

(** Scroll prevention takes precedence over the delay: with a truthy
    [preventScroll] a fresh pointer-down, whatever the configured delay,
    schedules only the forced-activation timer (with [preventScroll] as its
    delay and the pointer-down event as its argument), leaves the delay
    timer alone, registers the three touch listeners after the pointer
    listeners and emits nothing; when that timer fires, dragging starts with
    the pointer-down event. *)
Theorem pointerDown_scroll_prevention_first (B : Base) (config : Config.t)
    (e : PointerEvent.t) (w : Engine) :
  ComputeFrame B ->
  _pointerActive (state w) = false ->
  truthy (Config.preventScroll config) = true ->
  let r := pointerDown B config e w in
  let f := fireTimeout B config "startPointerDrag" r in
  TimeoutStore.find "startPointerDrag" (timeoutStore r)
  = Some {| callback := CbStartPointerDrag;
            ms := Config.preventScroll config; arg := e |}
  /\ TimeoutStore.find "dragDelay" (timeoutStore r)
     = TimeoutStore.find "dragDelay" (timeoutStore w)
  /\ _delayed (state r) = _delayed (start B config (OfPointer e) (state w))
  /\ _pointerId (state r) = pointerId e
  /\ emitted r = emitted w
  /\ eventStore r = eventStore w ++ pointerListeners config ++ scrollListeners
  /\ state f = dragStarted B config e (state r)
  /\ emitted f = emitted w ++ [state f]
  /\ phase config (state f) = Dragging
  /\ TimeoutStore.find "startPointerDrag" (timeoutStore f) = None.
Proof.
  intros F Hidle Hps r f.
  destruct (pointerDown_fresh B config e w Hidle)
    as (w5 & Hr & Hid & Hpa & _ & _ & Hdl & He & Ht & Hl & _).
  rewrite Hps in Hr. fold r in Hr.
  assert (Hfind : TimeoutStore.find "startPointerDrag" (timeoutStore r)
                  = Some {| callback := CbStartPointerDrag;
                            ms := Config.preventScroll config; arg := e |}).
  { rewrite Hr. reflexivity. }
  assert (Hf : f = startPointerDrag B config e
                     (timeoutStore_remove "startPointerDrag" r)).
  { unfold f, fireTimeout. rewrite Hfind. reflexivity. }
  assert (Hsr : state r = state w5) by (rewrite Hr; reflexivity).
  assert (Her : emitted r = emitted w) by (rewrite Hr; cbn; exact He).
  split; [exact Hfind|].
  split.
  { rewrite Hr. cbn. rewrite Ht.
    apply (find_remove_other "dragDelay" "startPointerDrag"). reflexivity. }
  split; [rewrite Hsr; exact Hdl|].
  split; [rewrite Hsr; exact Hid|].
  split; [exact Her|].
  split.
  { rewrite Hr. cbn. rewrite Hl. unfold scrollListeners.
    rewrite <- !app_assoc. reflexivity. }
  assert (Hsf : state f = dragStarted B config e (state r))
    by (rewrite Hf; reflexivity).
  split; [exact Hsf|].
  split; [rewrite Hsf, Hf; cbn; rewrite Her; reflexivity|].
  split.
  { rewrite Hsf. apply dragStarted_phase; [assumption|].
    rewrite Hsr. exact Hpa. }
  rewrite Hf. cbn. apply find_remove_same.
Qed.

Lemma pointerDown_scroll_prevention_first_witness :
  let both :=
    {| Config.device := "touch"; Config.pointerCapture := false;
       Config.pointerLock := false; Config.preventScroll := 250;
       Config.preventScrollAxis := ScrollY; Config.delay := 200;
       Config.filterTaps := false; Config.swipeVelocity := (0.5, 0.5);
       Config.swipeDistance := (50, 50); Config.swipeDuration := 250 |} in
  let e := pev "touchstart" 0 1 10 10 in
  let r := pointerDown refBase both e (newEngine refBase) in
  truthy (Config.preventScroll both) = true
  /\ (0 <? Config.delay both) = true
  /\ TimeoutStore.find "dragDelay" (timeoutStore r) = None
  /\ _delayed (state r) = false
  /\ phase both (state r) = ScrollPending
  /\ emitted r = [].
Proof.
  intros both e r.
  destruct (pointerDown_scroll_prevention_first refBase both e
              (newEngine refBase) ref_frame eq_refl eq_refl)
    as (_ & Hd & Hdl & _ & He & _).
  fold r in Hd, Hdl, He.
  split; [reflexivity|]. split; [reflexivity|].
  split; [rewrite Hd; reflexivity|].
  split; [rewrite Hdl; reflexivity|].
  split; [reflexivity|exact He].
Defined.

(** ** Pointer move while dragging *)

Lemma dragging_inv (config : Config.t) (s : State) :
  phase config s = Dragging ->
  _pointerActive s = true /\ _delayed s = false
  /\ (truthy (Config.preventScroll config) && negb (_preventScroll s)) = false.
Proof.
  unfold phase.
  destruct (_pointerActive s); cbn; [|discriminate].
  destruct (_delayed s); [discriminate|].
  destruct (truthy (Config.preventScroll config) && negb (_preventScroll s));
    [discriminate|].
  repeat split; reflexivity.
Qed.

(** In the Dragging phase every accepted pointer-move is emitted, once, with
    the state its kinematics pass returned; timers, listeners and queued
    cancellations are untouched, and the gesture stays in the Dragging
    phase, whatever axis the kinematics report: once dragging, a move never
    aborts the gesture. *)
Theorem dragging_move_emits (B : Base) (config : Config.t)
    (e : PointerEvent.t) (w : Engine) :
  ComputeFrame B ->
  accepts (state w) e = true ->
  phase config (state w) = Dragging ->
  let r := pointerMove B config e w in
  r = emit (with_state (moved B config e w) w)
  /\ state r = moved B config e w
  /\ emitted r = emitted w ++ [moved B config e w]
  /\ timeoutStore r = timeoutStore w
  /\ eventStore r = eventStore w
  /\ phase config (state r) = Dragging.
Proof.
  intros F Hacc Hph r.
  destruct (dragging_inv config (state w) Hph) as (Hpa & Hdl & Hps).
  destruct (moved_frame B config e w F) as (Mpa & Mdl & Mps & _).
  assert (Hr : r = emit (with_state (moved B config e w) w)).
  { unfold r. rewrite (pointerMove_accepted B config e w Hacc). cbv zeta.
    change (state (computeWith B config (Some (OfPointer e))
                     (on_state
                        (fun s =>
                           accumulate (sample (pointerLockElement w) e s))
                        w)))
      with (moved B config e w).
    rewrite Mdl, Hdl, Mps, Hps. reflexivity. }
  split; [exact Hr|]. rewrite Hr. cbn.
  repeat split.
  unfold phase. rewrite Mpa, Hpa, Mdl, Hdl, Mps, Hps. reflexivity.
Qed.

Lemma dragging_move_emits_witness :
  let w :=
    pointerDown refBase defaultConfig (pev "pointerdown" 0 1 10 10)
      (newEngine refBase) in
  let e := pev "pointermove" 8 1 10 60 in
  let r := pointerMove refBase defaultConfig e w in
  accepts (state w) e = true
  /\ phase defaultConfig (state w) = Dragging
  /\ axis (state r) = Some AxisY
  /\ List.length (emitted r) = 2%nat
  /\ phase defaultConfig (state r) = Dragging.
Proof.
  intros w e r.
  destruct (dragging_move_emits refBase defaultConfig e w ref_frame eq_refl
              eq_refl) as (_ & _ & He & _ & _ & Hp).
  fold r in He, Hp.
  split; [reflexivity|]. split; [reflexivity|]. split; [reflexivity|].
  split; [rewrite He; reflexivity|exact Hp].
Defined.

(** ** The scroll-blocking listener *)

(** The touch-move listener registered by scroll prevention calls
    [preventDefault] never while the gesture is scroll-pending, never on an
    event that is not cancelable, and, once [startPointerDrag] has run, on
    exactly the cancelable events. *)
Theorem scroll_blocked_only_once_dragging (B : Base) (config : Config.t)
    (w : Engine) :
  ComputeFrame B ->
  (forall ev, phase config (state w) = ScrollPending ->
              preventScroll ev w = false)
  /\ (forall ev, PointerEvent.cancelable ev = false ->
                 preventScroll ev w = false)
  /\ (forall e ev,
        preventScroll ev (startPointerDrag B config e w)
        = PointerEvent.cancelable ev).
Proof.
  intros F. split; [|split].
  - intros ev Hph.
    destruct (scroll_pending_inv config (state w) Hph) as (_ & _ & Hps & _).
    unfold preventScroll. rewrite Hps. reflexivity.
  - intros ev Hc. unfold preventScroll. rewrite Hc. apply andb_false_r.
  - intros e ev. unfold preventScroll.
    destruct (dragStarted_flags B config e (state w) F) as (_ & _ & Hps & _).
    change (state (startPointerDrag B config e w))
      with (dragStarted B config e (state w)).
    rewrite Hps. reflexivity.
Qed.

Lemma scroll_blocked_only_once_dragging_witness :
  let down := pev "touchstart" 0 1 10 10 in
  let w := pointerDown refBase scrollConfig down (newEngine refBase) in
  let ev := pev "touchmove" 8 1 10 12 in
  phase scrollConfig (state w) = ScrollPending
  /\ preventScroll ev w = false
  /\ preventScroll ev (startPointerDrag refBase scrollConfig down w) = true.
Proof.
  intros down w ev.
  destruct (scroll_blocked_only_once_dragging refBase scrollConfig w
              ref_frame) as (H1 & _ & H3).
  assert (Hph : phase scrollConfig (state w) = ScrollPending)
    by (vm_compute; reflexivity).
  split; [exact Hph|]. split; [exact (H1 ev Hph)|].
  rewrite (H3 down ev). reflexivity.
Defined.

(** ** Tap filtering and the click interceptor *)

(** The click interceptor suppresses every click until a pointer-up
    classifies a tap: right after [reset] it suppresses, and after a
    pointer-up that ends the gesture it suppresses exactly when a distance
    component exceeds 3 (or is NaN). *)
Theorem click_suppressed_unless_tap (B : Base) (config : Config.t)
    (e : PointerEvent.t) (w : Engine) :
  ends (state w) e = true ->
  let s1 :=
    compute B config (Some (OfPointer e))
      (state (setActive (on_state (set_pointerActive false) w))) in
  pointerClick (pointerUp B config e w)
  = negb ((fst (_distance s1) <=? 3) && (snd (_distance s1) <=? 3))
  /\ (forall s, pointerClick (with_state (reset B s) w) = true).
Proof.
  intros H s1.
  destruct (pointerUp_ends B config e w H) as [Hs _]. fold s1 in Hs.
  unfold pointerClick. rewrite Hs.
  destruct (classify_tap config s1) as [Ht _]. rewrite Ht.
  split; reflexivity.
Qed.

Lemma click_suppressed_unless_tap_witness :
  let w :=
    run refBase captureConfig (newEngine refBase)
      [PointerDown (pev "pointerdown" 0 1 10 10)] in
  let far :=
    run refBase captureConfig w [PointerMove (pev "pointermove" 8 1 30 10)] in
  let up := pev "pointerup" 16 1 30 10 in
  ends (state w) up = true
  /\ pointerClick (newEngine refBase) = true
  /\ pointerClick (pointerUp refBase captureConfig up w) = false
  /\ pointerClick (pointerUp refBase captureConfig up far) = true.
Proof.
  intros w far up.
  destruct (click_suppressed_unless_tap refBase captureConfig up w eq_refl)
    as [Hw _].
  destruct (click_suppressed_unless_tap refBase captureConfig up far eq_refl)
    as [Hfar _].
  split; [reflexivity|]. split; [reflexivity|].
  split; [rewrite Hw; reflexivity|rewrite Hfar; reflexivity].
Defined.

Lemma classify_force (config : Config.t) (s : State) :
  let t := (fst (_distance s) <=? 3) && (snd (_distance s) <=? 3) in
  (t && Config.filterTaps config = true ->
   _force (classify config s) = true /\ swipe (classify config s) = swipe s)
  /\ (t && Config.filterTaps config = false ->
      _force (classify config s) = _force s).
Proof.
  unfold classify, swipeTest.
  destruct (Config.swipeVelocity config), (Config.swipeDistance config).
  split_state s.
  split; intros H; rewrite H; cbn; [split; reflexivity|].
  case_ifs; reflexivity.
Qed.

(** With tap filtering, a pointer-up classified as a tap sets the [_force]
    flag on the terminal snapshot and skips the swipe test, so [swipe] is
    left as it was; in every other case the pointer-up leaves [_force]
    as the kinematics pass returned it. *)
Theorem filtered_tap_forces_emission (B : Base) (config : Config.t)
    (e : PointerEvent.t) (w : Engine) :
  ends (state w) e = true ->
  let s1 :=
    compute B config (Some (OfPointer e))
      (state (setActive (on_state (set_pointerActive false) w))) in
  let r := pointerUp B config e w in
  let filtered := tap (state r) && Config.filterTaps config in
  emitted r = emitted w ++ [state r]
  /\ (filtered = true ->
      _force (state r) = true /\ swipe (state r) = swipe s1)
  /\ (filtered = false -> _force (state r) = _force s1).
Proof.
  intros H s1 r filtered.
  destruct (pointerUp_ends B config e w H) as [Hs He]. fold s1 in Hs, He.
  unfold filtered, r. rewrite Hs, He.
  destruct (classify_tap config s1) as [Ht _]. rewrite Ht.
  destruct (classify_force config s1) as [Hy Hn].
  split; [reflexivity|]. split; assumption.
Qed.

Lemma filtered_tap_forces_emission_witness :
  let w :=
    pointerDown refBase captureConfig (pev "pointerdown" 0 1 10 10)
      (newEngine refBase) in
  let up := pev "pointerup" 16 1 10 10 in
  let r := pointerUp refBase captureConfig up w in
  ends (state w) up = true
  /\ tap (state r) = true
  /\ _force (state r) = true
  /\ swipe (state r) = (0, 0).
Proof.
  intros w up r.
  destruct (filtered_tap_forces_emission refBase captureConfig up w eq_refl)
    as (_ & Hy & _).
  fold r in Hy.
  assert (Hfil : tap (state r) && Config.filterTaps captureConfig = true)
    by (vm_compute; reflexivity).
  destruct (Hy Hfil) as [Hf Hs].
  split; [vm_compute; reflexivity|]. split; [vm_compute; reflexivity|].
  split; [exact Hf|rewrite Hs; vm_compute; reflexivity].
Defined.

(** ** Pointer capture *)








(** ** Teardown *)

(** [clean] is idempotent, and final for the pointer: after it no timer of
    the engine's store fires, and no pointer-move changes anything, until
    the next pointer-down.  It releases the pointer lock only when pointer
    lock is configured and the lock is held by the gesture's own target; a
    lock held by another element is left in place. *)
Theorem clean_is_final (B : Base) (config : Config.t) (w : Engine) :
  clean config (clean config w) = clean config w
  /\ (forall k, fireTimeout B config k (clean config w) = clean config w)
  /\ (forall e, pointerMove B config e (clean config w) = clean config w)
  /\ (forall e, state (pointerUp B config e (clean config w))
                = state (clean config w)
                /\ emitted (pointerUp B config e (clean config w))
                   = emitted w)
  /\ (node_eqb (pointerLockElement w) (currentTarget (state w)) = false ->
      pointerLockElement (clean config w) = pointerLockElement w)
  /\ (Config.pointerLock config = false ->
      pointerLockElement (clean config w) = pointerLockElement w).
Proof.
  destruct (clean_spec config w) as (Cp & Ck & Ca & Ct & Ce & Cm & _).
  split.
  { unfold clean, pointerClean. destruct w as [s es ts ids em caps lk rq n].
    destruct s. cbn.
    destruct (Config.pointerLock config); cbn; [|reflexivity].
    destruct lk as [l|]; cbn; [|reflexivity].
    destruct currentTarget0 as [t|]; cbn; [|reflexivity].
    destruct (Nat.eqb l t) eqn:E; cbn; rewrite ?E; reflexivity. }
  split.
  { intros k. unfold fireTimeout. rewrite Ct. reflexivity. }
  split.
  { intros e. apply pointerMove_ignored. unfold accepts. rewrite Cp.
    reflexivity. }
  split.
  { intros e.
    destruct (pointerUp_ignored B config e (clean config w)) as (Hs & He & _).
    - unfold ends. rewrite Cp. reflexivity.
    - split; [exact Hs|]. rewrite He. exact Cm. }
  split.
  { intros Hn. unfold clean, pointerClean. rewrite Hn, andb_false_r.
    reflexivity. }
  intros Hl. unfold clean, pointerClean. rewrite Hl. reflexivity.
Qed.

(** ** Reset *)

(** Whatever the generic reset of the parent class does, after [reset] the
    pointer is idle with no captured id, the keyboard source is inactive,
    the gesture is not canceled, and [tap] and [swipe] hold their defaults:
    pointer-move and pointer-up are ignored, and a [cancel] call is queued
    instead of being dropped. *)
Theorem reset_makes_pointer_idle (B : Base) (config : Config.t)
    (s : State) (w : Engine) :
  let w' := with_state (reset B s) w in
  phase config (state w') = Idle
  /\ _pointerId (state w') = None
  /\ _keyboardActive (state w') = false
  /\ tap (state w') = false
  /\ swipe (state w') = (0, 0)
  /\ cancel w' = with_pendingCancels (S (pendingCancels w)) w'
  /\ (forall e, pointerMove B config e w' = w')
  /\ (forall e, state (pointerUp B config e w') = state w'
                /\ emitted (pointerUp B config e w') = emitted w).
Proof.
  intros w'.
  assert (Hp : _pointerActive (state w') = false) by reflexivity.
  split; [reflexivity|]. split; [reflexivity|]. split; [reflexivity|].
  split; [reflexivity|]. split; [reflexivity|]. split; [reflexivity|].
  split.
  { intros e. apply pointerMove_ignored. unfold accepts. rewrite Hp.
    reflexivity. }
  intros e.
  destruct (pointerUp_ignored B config e w') as (Hs & He & _).
  { unfold ends. rewrite Hp. reflexivity. }
  split; [exact Hs|exact He].
Qed.

(** ** Keyboard displacements *)

(** Opposite arrow keys pressed with the same modifiers produce
    displacements that add up to exactly [(0, 0)], for each of the three
    factors (10, 0.1 and 1). *)
Theorem opposite_arrows_cancel (e1 e2 : KeyboardEvent.t) :
  KeyboardEvent.shiftKey e1 = KeyboardEvent.shiftKey e2 ->
  KeyboardEvent.altKey e1 = KeyboardEvent.altKey e2 ->
  (KeyboardEvent.key e1 = "ArrowRight" /\ KeyboardEvent.key e2 = "ArrowLeft")
  \/ (KeyboardEvent.key e1 = "ArrowUp" /\ KeyboardEvent.key e2 = "ArrowDown") ->
  exists d1 d2 : Vector2,
    keyDelta e1 = Some d1 /\ keyDelta e2 = Some d2
    /\ V.addTo d1 d2 = (0, 0) /\ V.addTo d2 d1 = (0, 0).
Proof.
  intros Hs Ha Hk. unfold keyDelta, key_factor.
  rewrite <- Hs, <- Ha.
  destruct Hk as [[K1 K2] | [K1 K2]]; rewrite K1, K2; cbn;
    destruct (KeyboardEvent.shiftKey e1), (KeyboardEvent.altKey e1);
    eexists; eexists; repeat split; reflexivity.
Qed.

Lemma opposite_arrows_cancel_witness :
  exists d1 d2 : Vector2,
    keyDelta (kev "keydown" 1 "ArrowUp" false true) = Some d1
    /\ keyDelta (kev "keydown" 2 "ArrowDown" false true) = Some d2
    /\ V.addTo d1 d2 = (0, 0) /\ V.addTo d2 d1 = (0, 0).
Proof.
  apply (opposite_arrows_cancel (kev "keydown" 1 "ArrowUp" false true)
           (kev "keydown" 2 "ArrowDown" false true) eq_refl eq_refl).
  right. split; reflexivity.
Defined.

(** ** Queued cancellations *)

Lemma with_pendingCancels_twice (a b : nat) (w : Engine) :
  with_pendingCancels a (with_pendingCancels b w) = with_pendingCancels a w.
Proof. reflexivity. Qed.

Lemma with_pendingCancels_same (w : Engine) :
  with_pendingCancels (pendingCancels w) w = w.
Proof. destruct w; reflexivity. Qed.

(** [cancel] calls made before any of their callbacks has run all pass the
    guard: [k] calls on a gesture that is not canceled queue [k] callbacks
    and change nothing else. *)
Theorem cancel_calls_queue_up (B : Base) (config : Config.t) (k : nat)
    (w : Engine) :
  canceled (state w) = false ->
  run B config w (repeat Cancel k)
  = with_pendingCancels (pendingCancels w + k) w.
Proof.
  revert w. induction k as [|k IH]; intros w Hc.
  - cbn. rewrite Nat.add_0_r. symmetry. apply with_pendingCancels_same.
  - cbn [repeat run fold_left step]. unfold cancel. rewrite Hc.
    change (fold_left (step B config) (repeat Cancel k)
              (with_pendingCancels (S (pendingCancels w)) w))
      with (run B config (with_pendingCancels (S (pendingCancels w)) w)
              (repeat Cancel k)).
    rewrite IH by exact Hc.
    rewrite with_pendingCancels_twice. cbn [pendingCancels with_pendingCancels].
    rewrite Nat.add_succ_r. reflexivity.
Qed.

Lemma cancel_calls_queue_up_witness :
  let w :=
    pointerDown refBase defaultConfig (pev "pointerdown" 0 1 10 10)
      (newEngine refBase) in
  canceled (state w) = false
  /\ pendingCancels (run refBase defaultConfig w (repeat Cancel 3)) = 3%nat
  /\ emitted (run refBase defaultConfig w (repeat Cancel 3)) = emitted w.
Proof.
  intros w.
  rewrite (cancel_calls_queue_up refBase defaultConfig 3 w eq_refl).
  repeat split.
Defined.

(** Every queued cancellation callback emits: running [n] callbacks when
    [n] are queued appends [n] snapshots, each with [canceled = true] and
    [_active = false], and empties the queue; a further run finds the queue
    empty and does nothing. *)
Theorem queued_cancels_all_emit (B : Base) (config : Config.t) (n : nat)
    (w : Engine) :
  ComputeFrame B ->
  pendingCancels w = n ->
  let r := run B config w (repeat RunPendingCancel n) in
  exists l : list State,
    emitted r = emitted w ++ l
    /\ List.length l = n
    /\ Forall (fun s => canceled s = true /\ _active s = false) l
    /\ pendingCancels r = 0%nat
    /\ runPendingCancel B config r = r.
Proof.
  intros F. revert w. induction n as [|n IH]; intros w Hn r.
  - exists []. unfold r. cbn. rewrite app_nil_r.
    repeat split; try assumption; [constructor|].
    unfold runPendingCancel. rewrite Hn. reflexivity.
  - set (w1 := runPendingCancel B config w).
    assert (Hw1 : w1 = cancelCallback B config (with_pendingCancels n w)).
    { unfold w1, runPendingCancel. rewrite Hn. reflexivity. }
    destruct (cancelCallback_spec B config (with_pendingCancels n w) F)
      as (_ & He & Hc & Ha & _ & _ & Hp).
    rewrite <- Hw1 in He, Hc, Ha, Hp. cbn in He, Hp.
    destruct (IH w1 Hp) as (l & Hl & Hlen & Hall & H0 & Hrun).
    exists (state w1 :: l).
    assert (Hr : r = run B config w1 (repeat RunPendingCancel n))
      by reflexivity.
    rewrite Hr, Hl, He, <- app_assoc. cbn.
    split; [reflexivity|]. split; [rewrite Hlen; reflexivity|].
    split; [constructor; [split; assumption|assumption]|].
    split; assumption.
Qed.

Lemma queued_cancels_all_emit_witness :
  let w :=
    run refBase defaultConfig (newEngine refBase)
      [PointerDown (pev "pointerdown" 0 1 10 10); Cancel; Cancel; Cancel] in
  let r := run refBase defaultConfig w (repeat RunPendingCancel 3) in
  pendingCancels w = 3%nat
  /\ List.length (emitted r) = (List.length (emitted w) + 3)%nat
  /\ pendingCancels r = 0%nat.
Proof.
  intros w r.
  destruct (queued_cancels_all_emit refBase defaultConfig 3 w ref_frame
              eq_refl) as (l & Hl & Hlen & _ & H0 & _).
  fold r in Hl, H0.
  split; [reflexivity|].
  split; [rewrite Hl, length_app, Hlen; reflexivity|exact H0].
Defined.

(** ** Emissions *)

Ltac emits_none :=
  exists (@nil State); rewrite app_nil_r; split; [reflexivity | cbn; lia].

Ltac emits_one :=
  eexists (cons _ nil); split; [reflexivity | cbn; lia].

Lemma pointerMove_emits (B : Base) (config : Config.t) (e : PointerEvent.t)
    (w : Engine) :
  exists l : list State,
    emitted (pointerMove B config e w) = emitted w ++ l
    /\ (List.length l <= 1)%nat.
Proof.
  destruct (accepts (state w) e) eqn:Hacc.
  - rewrite (pointerMove_accepted B config e w Hacc). cbv zeta.
    match goal with
    | |- context [_delayed ?s] => destruct (_delayed s)
    end; [emits_one|].
    match goal with
    | |- context [if ?b then _ else _] => destruct b
    end; [|emits_one].
    match goal with
    | |- context [axis ?s] => destruct (axis s) as [a|]
    end; [|emits_none].
    destruct (axis_matches a (Config.preventScrollAxis config)
              || is_xy (Config.preventScrollAxis config)); [|emits_one].
    match goal with
    | |- context [clean config ?x] =>
        destruct (clean_spec config x) as (_ & _ & _ & _ & _ & Cm & _);
        rewrite Cm
    end.
    emits_none.
  - rewrite (pointerMove_ignored B config e w Hacc). emits_none.
Qed.

Lemma pointerDown_emits (B : Base) (config : Config.t) (e : PointerEvent.t)
    (w : Engine) :
  exists l : list State,
    emitted (pointerDown B config e w) = emitted w ++ l
    /\ (List.length l <= 1)%nat.
Proof.
  destruct (_pointerActive (state w)) eqn:Hp.
  - unfold pointerDown.
    destruct (Config.pointerCapture config); cbn; rewrite Hp; emits_none.
  - destruct (pointerDown_fresh B config e w Hp)
      as (w5 & Hr & _ & _ & _ & _ & _ & He & _).
    rewrite Hr.
    destruct (truthy (Config.preventScroll config)).
    + cbn. rewrite He. emits_none.
    + destruct (0 <? Config.delay config); cbn; rewrite He;
        [emits_none|emits_one].
Qed.

(** No handler calls [emit] twice: every input whose handler stays within
    the typed state (pointer-down, pointer-move, pointer-up, key-up, cancel
    request, deferred callback, timer, clean-up, and key-down on any key
    that is not a member inherited from [Object.prototype]) adds at most
    one snapshot to those handed to the consumer, so over a run of [n] such
    inputs the consumer receives at most [n] snapshots. *)
Theorem at_most_one_emission_per_input (B : Base) (config : Config.t)
    (inputs : list Input) (w : Engine) :
  forallb typedInput inputs = true ->
  (List.length (emitted (run B config w inputs))
   <= List.length (emitted w) + List.length inputs)%nat.
Proof.
  revert w. induction inputs as [|i inputs IH]; intros w Hty.
  - cbn. lia.
  - cbn [forallb] in Hty. apply andb_true_iff in Hty.
    destruct Hty as [Hi Hty].
    assert (Hstep : exists l : list State,
               emitted (step B config w i) = emitted w ++ l
               /\ (List.length l <= 1)%nat).
    { destruct i as [e|e|e|e|e| | |k|]; cbn [step].
      - apply pointerDown_emits.
      - apply pointerMove_emits.
      - destruct (ends (state w) e) eqn:He.
        + destruct (pointerUp_ends B config e w He) as [_ H].
          cbv zeta in H. rewrite H. emits_one.
        + destruct (pointerUp_ignored B config e w He) as (_ & H & _).
          rewrite H. emits_none.
      - unfold keyDown, lookupKey. unfold typedInput in Hi.
        apply negb_true_iff in Hi.
        destruct (KEYS_DELTA_MAP (KeyboardEvent.key e));
          [emits_one|rewrite Hi; emits_none].
      - unfold keyUp.
        destruct (negb (inTable (KeyboardEvent.key e)));
          [emits_none|emits_one].
      - unfold cancel. destruct (canceled (state w)); emits_none.
      - unfold runPendingCancel.
        destruct (pendingCancels w); [emits_none|emits_one].
      - unfold fireTimeout.
        destruct (TimeoutStore.find k (timeoutStore w)) as [t|];
          [destruct (callback t); emits_one|emits_none].
      - destruct (clean_spec config w) as (_ & _ & _ & _ & _ & Cm & _).
        rewrite Cm. emits_none. }
    destruct Hstep as (l1 & H1 & L1).
    specialize (IH (step B config w i) Hty).
    change (run B config w (i :: inputs))
      with (run B config (step B config w i) inputs).
    rewrite H1, length_app in IH. cbn [List.length]. lia.
Qed.

Lemma at_most_one_emission_per_input_witness :
  let inputs :=
    [PointerDown (pev "pointerdown" 0 1 10 10);
     PointerMove (pev "pointermove" 50 1 15 10);
     KeyDown (kev "keydown" 60 "Enter" false false);
     PointerUp (pev "pointerup" 70 1 15 10);
     FireTimeout "dragDelay"] in
  forallb typedInput inputs = true
  /\ (List.length
        (emitted (run refBase delayConfig (newEngine refBase) inputs))
      <= 5)%nat.
Proof.
  intros inputs.
  split; [reflexivity|].
  apply (at_most_one_emission_per_input refBase delayConfig inputs
           (newEngine refBase)).
  reflexivity.
Defined.

(** ** End of the pointer gesture *)

(** A pointer-up that ends the gesture is terminal for the pointer: it
    clears [_pointerActive], makes [_active] follow the keyboard source
    alone, and afterwards pointer-moves and further pointer-ups, of any
    pointer id, change neither the state nor the emissions; a gesture
    emits its terminal snapshot once. *)
Theorem pointerUp_is_terminal (B : Base) (config : Config.t)
    (e : PointerEvent.t) (w : Engine) :
  ComputeFrame B ->
  ends (state w) e = true ->
  let r := pointerUp B config e w in
  _pointerActive (state r) = false
  /\ _active (state r) = _keyboardActive (state w)
  /\ phase config (state r) = Idle
  /\ (forall e', pointerMove B config e' r = r)
  /\ (forall e', state (pointerUp B config e' r) = state r
                 /\ emitted (pointerUp B config e' r) = emitted r).
Proof.
  intros F He r.
  destruct (pointerUp_ends B config e w He) as [Hs _]. cbv zeta in Hs.
  assert (Hp : _pointerActive (state r) = false).
  { unfold r. rewrite Hs.
    match goal with
    | |- context [classify config ?s] =>
        destruct (classify_flags config s) as (_ & Hcp & _); rewrite Hcp
    end.
    autorewrite with frame. reflexivity. }
  split; [exact Hp|].
  split.
  { unfold r. rewrite Hs.
    match goal with
    | |- context [classify config ?s] =>
        destruct (classify_flags config s) as (Hca & _ & _); rewrite Hca
    end.
    autorewrite with frame. reflexivity. }
  split; [unfold phase; rewrite Hp; reflexivity|].
  split.
  { intros e'. apply pointerMove_ignored. unfold accepts. rewrite Hp.
    reflexivity. }
  intros e'.
  destruct (pointerUp_ignored B config e' r) as (Us & Ue & _).
  { unfold ends. rewrite Hp. reflexivity. }
  split; assumption.
Qed.

Lemma pointerUp_is_terminal_witness :
  let w :=
    pointerDown refBase defaultConfig (pev "pointerdown" 0 1 10 10)
      (newEngine refBase) in
  let up := pev "pointerup" 9 1 10 10 in
  let r := pointerUp refBase defaultConfig up w in
  ends (state w) up = true
  /\ _active (state r) = false
  /\ pointerMove refBase defaultConfig (pev "pointermove" 12 1 50 50) r = r
  /\ emitted (pointerUp refBase defaultConfig up r) = emitted r.
Proof.
  intros w up r.
  destruct (pointerUp_is_terminal refBase defaultConfig up w ref_frame
              eq_refl) as (_ & Ha & _ & Hm & Hu).
  fold r in Ha, Hm, Hu.
  split; [vm_compute; reflexivity|].
  split; [rewrite Ha; vm_compute; reflexivity|].
  split; [apply Hm|apply Hu].
Defined.

(** ** What a pointer-move changes *)

Lemma pointerMove_result_fields (B : Base) (config : Config.t)
    (e : PointerEvent.t) (w : Engine) :
  ComputeFrame B ->
  accepts (state w) e = true ->
  let r := pointerMove B config e w in
  let s1 := moved B config e w in
  _pointerId (state r) = _pointerId s1
  /\ initial (state r) = initial s1
  /\ tap (state r) = tap s1
  /\ swipe (state r) = swipe s1
  /\ canceled (state r) = canceled s1
  /\ _force (state r) = _force s1
  /\ _delta (state r) = _delta s1.
Proof.
  intros F Hacc r s1. unfold r.
  rewrite (pointerMove_accepted B config e w Hacc). cbv zeta.
  change (state (computeWith B config (Some (OfPointer e))
                   (on_state
                      (fun s => accumulate (sample (pointerLockElement w) e s))
                      w)))
    with s1.
  destruct (_delayed s1).
  - cbn. fold (dragStarted B config e s1).
    unfold dragStarted. autorewrite with frame. repeat split; reflexivity.
  - destruct (truthy (Config.preventScroll config)
              && negb (_preventScroll s1)).
    + destruct (axis s1) as [a|]; [|repeat split; reflexivity].
      destruct (axis_matches a (Config.preventScrollAxis config)
                || is_xy (Config.preventScrollAxis config)).
      * unfold clean, pointerClean.
        match goal with
        | |- context [if ?b then _ else _] => destruct b
        end; repeat split; reflexivity.
      * cbn. fold (dragStarted B config e s1).
        unfold dragStarted. autorewrite with frame.
        repeat split; reflexivity.
    + repeat split; reflexivity.
Qed.

Lemma moved_fields (B : Base) (config : Config.t) (e : PointerEvent.t)
    (w : Engine) :
  ComputeFrame B ->
  let s1 := moved B config e w in
  _pointerId s1 = _pointerId (state w)
  /\ initial s1 = initial (state w)
  /\ tap s1 = tap (state w)
  /\ swipe s1 = swipe (state w)
  /\ canceled s1 = canceled (state w)
  /\ _force s1 = _force (state w).
Proof.
  intros F s1. unfold s1, moved, accumulate, sample.
  autorewrite with frame.
  destruct (node_eqb (pointerLockElement w) (Some (PointerEvent.target e)));
    repeat split; reflexivity.
Qed.

(** Pointer-moves never change the identity of the gesture: over any
    sequence of pointer-move events, accepted or not and whichever branch
    each takes (delayed start, scroll-pending, abort, dragging), the
    captured pointer id, the initial position, the cancellation flag, the
    tap and swipe classification and the force flag stay as they were. *)
Theorem moves_keep_gesture_identity (B : Base) (config : Config.t)
    (es : list PointerEvent.t) (w : Engine) :
  ComputeFrame B ->
  let r := pointerMoves B config es w in
  _pointerId (state r) = _pointerId (state w)
  /\ initial (state r) = initial (state w)
  /\ tap (state r) = tap (state w)
  /\ swipe (state r) = swipe (state w)
  /\ canceled (state r) = canceled (state w)
  /\ _force (state r) = _force (state w).
Proof.
  intros F. revert w.
  induction es as [|e es IH]; intros w r; [repeat split; reflexivity|].
  assert (Hstep :
            let r1 := pointerMove B config e w in
            _pointerId (state r1) = _pointerId (state w)
            /\ initial (state r1) = initial (state w)
            /\ tap (state r1) = tap (state w)
            /\ swipe (state r1) = swipe (state w)
            /\ canceled (state r1) = canceled (state w)
            /\ _force (state r1) = _force (state w)).
  { destruct (accepts (state w) e) eqn:Hacc.
    - destruct (pointerMove_result_fields B config e w F Hacc)
        as (R1 & R2 & R3 & R4 & R5 & R6 & _).
      destruct (moved_fields B config e w F)
        as (M1 & M2 & M3 & M4 & M5 & M6).
      cbv zeta in *.
      rewrite R1, R2, R3, R4, R5, R6. repeat split; assumption.
    - cbv zeta. rewrite (pointerMove_ignored B config e w Hacc).
      repeat split; reflexivity. }
  destruct Hstep as (S1 & S2 & S3 & S4 & S5 & S6).
  destruct (IH (pointerMove B config e w)) as (I1 & I2 & I3 & I4 & I5 & I6).
  unfold r.
  change (pointerMoves B config (e :: es) w)
    with (pointerMoves B config es (pointerMove B config e w)).
  rewrite I1, I2, I3, I4, I5, I6. repeat split; assumption.
Qed.

Lemma moves_keep_gesture_identity_witness :
  let w :=
    pointerDown refBase scrollConfig (pev "touchstart" 0 5 10 10)
      (newEngine refBase) in
  let es := [pev "touchmove" 8 5 10 10; pev "touchmove" 16 5 11 40;
             pev "touchmove" 24 5 90 40] in
  let r := pointerMoves refBase scrollConfig es w in
  _pointerActive (state r) = false
  /\ _pointerId (state r) = Some 5%Z
  /\ initial (state r) = (10, 10).
Proof.
  intros w es r.
  destruct (moves_keep_gesture_identity refBase scrollConfig es w ref_frame)
    as (H1 & H2 & _).
  fold r in H1, H2.
  split; [vm_compute; reflexivity|].
  split; [rewrite H1; vm_compute; reflexivity|].
  rewrite H2. vm_compute. reflexivity.
Defined.

(** Every accepted pointer-move, whichever branch it takes, records its
    sample the same way: when the event's target holds the pointer lock the
    delta is the reported relative movement and the stored position is not
    advanced; otherwise the delta is the event's position minus the stored
    one and the stored position becomes the event's position. *)
Theorem accepted_move_records_sample (B : Base) (config : Config.t)
    (e : PointerEvent.t) (w : Engine) :
  ComputeFrame B ->
  accepts (state w) e = true ->
  let r := pointerMove B config e w in
  if node_eqb (pointerLockElement w) (Some (PointerEvent.target e)) then
    _delta (state r) = (PointerEvent.movementX e, PointerEvent.movementY e)
    /\ values (state r) = values (state w)
  else
    _delta (state r) = V.sub (pointerValues e) (values (state w))
    /\ values (state r) = pointerValues e.
Proof.
  intros F Hacc r.
  destruct (pointerMove_result_fields B config e w F Hacc)
    as (_ & _ & _ & _ & _ & _ & Rd).
  destruct (pointerMove_keeps B config e w F Hacc) as (_ & Rv & _).
  cbv zeta in Rd, Rv. unfold r. rewrite Rd, Rv.
  unfold moved, accumulate, sample. autorewrite with frame.
  destruct (node_eqb (pointerLockElement w) (Some (PointerEvent.target e)));
    split; reflexivity.
Qed.

Lemma accepted_move_records_sample_witness :
  let w :=
    pointerDown refBase defaultConfig (pev "pointerdown" 0 1 10 10)
      (newEngine refBase) in
  let locked := with_pointerLockElement (Some 1%nat) w in
  let e :=
    {| PointerEvent.type := "pointermove"; PointerEvent.timeStamp := 8;
       PointerEvent.pointerId := Some 1%Z; PointerEvent.clientX := 10;
       PointerEvent.clientY := 10; PointerEvent.movementX := 3;
       PointerEvent.movementY := -2; PointerEvent.target := 1%nat;
       PointerEvent.currentTarget := 1%nat;
       PointerEvent.cancelable := true |} in
  accepts (state locked) e = true
  /\ _delta (state (pointerMove refBase defaultConfig e locked)) = (3, -2)
  /\ values (state (pointerMove refBase defaultConfig e locked)) = (10, 10)
  /\ _delta (state (pointerMove refBase defaultConfig e w)) = (0, 0).
Proof.
  intros w locked e.
  pose proof (accepted_move_records_sample refBase defaultConfig e locked
                ref_frame eq_refl) as Hl.
  pose proof (accepted_move_records_sample refBase defaultConfig e w
                ref_frame eq_refl) as Hu.
  cbv zeta in Hl, Hu.
  change (node_eqb (pointerLockElement locked) (Some (PointerEvent.target e)))
    with true in Hl.
  change (node_eqb (pointerLockElement w) (Some (PointerEvent.target e)))
    with false in Hu.
  destruct Hl as [Hd Hv]. destruct Hu as [Hd' _].
  split; [vm_compute; reflexivity|].
  split; [exact Hd|]. split; [rewrite Hv; vm_compute; reflexivity|].
  rewrite Hd'. vm_compute. reflexivity.
Defined.

(** ** Ignored inputs and wiring *)




(** ** One pointer per gesture *)

(** The first pointer owns the gesture: a pointer-down that is not ignored,
    in any of its three branches, captures the event's pointer id and
    position, and a pointer-down of any other pointer arriving afterwards
    leaves the captured id, the positions and the emissions as they are. *)
Theorem first_pointer_owns_gesture (B : Base) (config : Config.t)
    (e e' : PointerEvent.t) (w : Engine) :
  ComputeFrame B ->
  _pointerActive (state w) = false ->
  let r := pointerDown B config e w in
  let r' := pointerDown B config e' r in
  _pointerActive (state r) = true
  /\ _pointerId (state r) = pointerId e
  /\ values (state r) = pointerValues e
  /\ initial (state r) = pointerValues e
  /\ state r' = state r
  /\ emitted r' = emitted r.
Proof.
  intros F Hidle r r'.
  destruct (pointerDown_fresh B config e w Hidle)
    as (w5 & Hr & Hid & Hpa & Hv & Hi & _).
  fold r in Hr.
  assert (H : _pointerActive (state r) = true
              /\ _pointerId (state r) = pointerId e
              /\ values (state r) = pointerValues e
              /\ initial (state r) = pointerValues e).
  { rewrite Hr.
    destruct (truthy (Config.preventScroll config));
      [repeat split; assumption|].
    destruct (0 <? Config.delay config); [repeat split; assumption|].
    cbn. fold (dragStarted B config e (state w5)).
    unfold dragStarted. autorewrite with frame. cbn.
    repeat split; assumption. }
  destruct H as (Ra & Rid & Rv & Ri).
  repeat (split; [assumption|]).
  unfold r', pointerDown.
  destruct (Config.pointerCapture config); cbn; rewrite Ra;
    split; reflexivity.
Qed.

Lemma first_pointer_owns_gesture_witness :
  let w := newEngine refBase in
  let r := pointerDown refBase delayConfig (pev "pointerdown" 0 3 10 10) w in
  let r' := pointerDown refBase delayConfig (pev "pointerdown" 2 4 80 80) r in
  _pointerActive (state w) = false
  /\ _pointerId (state r') = Some 3%Z
  /\ values (state r') = (10, 10).
Proof.
  intros w r r'.
  destruct (first_pointer_owns_gesture refBase delayConfig
              (pev "pointerdown" 0 3 10 10) (pev "pointerdown" 2 4 80 80) w
              ref_frame eq_refl) as (_ & Hid & Hv & _ & Hs & _).
  fold r in Hid, Hv, Hs. fold r' in Hs.
  split; [reflexivity|]. rewrite Hs.
  split; [exact Hid|exact Hv].
Defined.
